(** * Operational transform server: a shallow embedding of
    [operational_transform/ot.py]

    The development follows the Python module top to bottom: the
    [Operation] value class, the pairwise [transform], the
    [DocumentModel] with its [apply_operation], and the [OTServer] whose
    [handle_incoming_operation] rebases an incoming operation against the
    unseen suffix of the history.

    Python integers are unbounded, so they are modelled by [Z]; a Python
    [str] is a [string]; slices follow Python's rule for negative and
    out-of-range bounds. *)

From Stdlib Require Import ZArith String Ascii.
From stdpp Require Import base list strings.

Local Open Scope Z_scope.

(** ** Python sequences: [len] and slices *)

Module Py.

(** [normalize n i] is the index a slice bound [i] denotes in a sequence
    of length [n]: a negative bound counts from the end, and the result
    is clamped into [0, n]. *)
Definition normalize (n : nat) (i : Z) : nat :=
  Z.to_nat (if i <? 0 then Z.max 0 (i + Z.of_nat n) else Z.min i (Z.of_nat n)).

Fixpoint str_take (n : nat) (s : string) : string :=
  match n, s with
  | S n', String c s' => String c (str_take n' s')
  | _, _ => EmptyString
  end.

Fixpoint str_drop (n : nat) (s : string) : string :=
  match n, s with
  | S n', String _ s' => str_drop n' s'
  | _, _ => s
  end.

(** [len(s)] *)
Definition len (s : string) : Z := Z.of_nat (String.length s).

(** [s[:stop]] *)
Definition upto (s : string) (stop : Z) : string :=
  str_take (normalize (String.length s) stop) s.

(** [s[start:]] *)
Definition from (s : string) (start : Z) : string :=
  str_drop (normalize (String.length s) start) s.

(** [l[start:]] on a Python list *)
Definition list_from {A : Type} (l : list A) (start : Z) : list A :=
  drop (normalize (length l) start) l.

End Py.

(** ** Statements: state passing with exceptions

    A method body is a function from the state of [self] to the state it
    leaves behind, paired with either the returned value or the raised
    exception.  The state component of a raising run is the state at the
    [raise]. *)

Inductive outcome (E A : Type) : Type :=
  | Returned (a : A)
  | Raised (e : E).
Arguments Returned {E A} a.
Arguments Raised {E A} e.

Definition M (S E A : Type) : Type := S -> S * outcome E A.

Definition ret {S E A : Type} (a : A) : M S E A := fun s => (s, Returned a).

Definition raise {S E A : Type} (e : E) : M S E A := fun s => (s, Raised e).

Definition bind {S E A B : Type} (m : M S E A) (k : A -> M S E B) : M S E B :=
  fun s =>
    match m s with
    | (s', Returned a) => k a s'
    | (s', Raised e) => (s', Raised e)
    end.

Definition get {S E : Type} : M S E S := fun s => (s, Returned s).

Definition modify {S E : Type} (f : S -> S) : M S E unit :=
  fun s => (f s, Returned tt).

(** Run a statement about a component of the state, given how to read
    and write that component. *)
Definition zoom {S T E A : Type} (rd : S -> T) (wr : T -> S -> S)
    (m : M T E A) : M S E A :=
  fun s => let (t', r) := m (rd s) in (wr t' s, r).

Declare Scope stmt_scope.
Delimit Scope stmt_scope with stmt.
Notation "x <- m ;; k" := (bind m (fun x => k))
  (at level 100, m at next level, k at level 200, right associativity) : stmt_scope.
Notation "m ;; k" := (bind m (fun _ => k))
  (at level 100, k at level 200, right associativity) : stmt_scope.

(** The exceptions the module raises. *)
Inductive Exception : Type :=
  | ValueError (msg : string).

(** ** [class Operation] *)

Module Operation.

Record t : Type := init {
  op_type : string;
  position : Z;
  text : string;
  length : Z;
  base_version : Z;
  op_id : option string
}.

(** [o.position = p] and [o.length = n], as functional updates. *)
Definition set_position (o : t) (p : Z) : t :=
  init (op_type o) p (text o) (length o) (base_version o) (op_id o).

Definition set_length (o : t) (n : Z) : t :=
  init (op_type o) (position o) (text o) n (base_version o) (op_id o).

(** [Operation(o.op_type, o.position, o.text, o.length, o.base_version)]:
    the sixth constructor argument is left to its default, [None]. *)
Definition copy (o : t) : t :=
  init (op_type o) (position o) (text o) (length o) (base_version o) None.

Definition is_insert (o : t) : bool := (op_type o =? "insert")%string.
Definition is_delete (o : t) : bool := (op_type o =? "delete")%string.

End Operation.

(** ** [transform] on values

    The delete-versus-insert branch calls [transform] again with the
    arguments swapped; [fuel] bounds the depth of that recursion. *)

Fixpoint transform_rec (fuel : nat) (opA opB : Operation.t)
    : option (Operation.t * Operation.t) :=
  match fuel with
  | O => None
  | S fuel' =>
    let A := Operation.copy opA in
    let B := Operation.copy opB in
    if Operation.is_insert A && Operation.is_insert B then
      if Operation.position A <? Operation.position B then
        Some (A, Operation.set_position B
                   (Operation.position B + Py.len (Operation.text A)))
      else if Operation.position A >? Operation.position B then
        Some (Operation.set_position A
                (Operation.position A + Py.len (Operation.text B)), B)
      else
        Some (A, Operation.set_position B
                   (Operation.position B + Py.len (Operation.text A)))
    else if Operation.is_insert A && Operation.is_delete B then
      if Operation.position A <=? Operation.position B then
        Some (A, Operation.set_position B
                   (Operation.position B + Py.len (Operation.text A)))
      else
        let shift := Z.min (Operation.position A - Operation.position B)
                           (Operation.length B) in
        Some (Operation.set_position A (Operation.position A - shift), B)
    else if Operation.is_delete A && Operation.is_insert B then
      match transform_rec fuel' B A with
      | Some (Bprime, Aprime) => Some (Aprime, Bprime)
      | None => None
      end
    else if Operation.is_delete A && Operation.is_delete B then
      if Operation.position A <? Operation.position B then
        let overlap := (Operation.position A + Operation.length A)
                       - Operation.position B in
        if overlap >? 0 then
          let B1 := Operation.set_position B (Operation.position A) in
          Some (A, Operation.set_length B1 (Operation.length B1 + overlap))
        else Some (A, B)
      else
        let overlap := (Operation.position B + Operation.length B)
                       - Operation.position A in
        if overlap >? 0 then
          let A1 := Operation.set_position A (Operation.position B) in
          Some (Operation.set_length A1 (Operation.length A1 + overlap), B)
        else Some (A, B)
    else Some (A, B)
  end.

(** One nested call is the deepest the recursion goes, so two units of
    fuel always produce the pair (lemma [transform_rec_enough]). *)
Definition transform (opA opB : Operation.t) : Operation.t * Operation.t :=
  default (Operation.copy opA, Operation.copy opB) (transform_rec 2 opA opB).

(** ** [class DocumentModel] *)

Module DocumentModel.

Record t : Type := mk {
  text : string;
  version : Z
}.

(** [DocumentModel(initial_text)] *)
Definition init (initial_text : string) : t := mk initial_text 0.

Definition set_text (s : string) (self : t) : t := mk s (version self).
Definition set_version (v : Z) (self : t) : t := mk (text self) v.

Local Open Scope stmt_scope.

Definition apply_operation (op : Operation.t) : M t Exception unit :=
  (if Operation.is_insert op then
     modify (fun self =>
       set_text (Py.upto (text self) (Operation.position op)
                 +:+ Operation.text op
                 +:+ Py.from (text self) (Operation.position op)) self)
   else if Operation.is_delete op then
     modify (fun self =>
       set_text (Py.upto (text self) (Operation.position op)
                 +:+ Py.from (text self)
                       (Operation.position op + Operation.length op)) self)
   else
     raise (ValueError "Unknown operation type.")) ;;
  modify (fun self => set_version (version self + 1) self).

End DocumentModel.

(** ** [class OTServer] *)

Module OTServer.

Record t : Type := mk {
  document : DocumentModel.t;
  history : list Operation.t
}.

(** [OTServer()] *)
Definition init : t := mk (DocumentModel.init "Hello OT!") [].

Definition set_document (d : DocumentModel.t) (self : t) : t :=
  mk d (history self).
Definition set_history (h : list Operation.t) (self : t) : t :=
  mk (document self) h.

(** The dictionary handed to [sio.emit('ot_update', ...)]. *)
Record update_payload : Type := payload {
  opId : option string;
  op_type : string;
  position : Z;
  text : string;
  length : Z;
  new_version : Z
}.

(** The [for old_op in unseen_ops: op, _ = transform(op, old_op)] loop. *)
Fixpoint rebase (op : Operation.t) (unseen_ops : list Operation.t)
    : Operation.t :=
  match unseen_ops with
  | [] => op
  | old_op :: rest => rebase (fst (transform op old_op)) rest
  end.

Local Open Scope stmt_scope.

(** The body up to the [await]; the emitted payload is the result. *)
Definition handle_incoming_operation (op : Operation.t)
    : M t Exception update_payload :=
  self <- get ;;
  let unseen_ops := Py.list_from (history self) (Operation.base_version op) in
  let op := rebase op unseen_ops in
  zoom document set_document (DocumentModel.apply_operation op) ;;
  modify (fun self => set_history (history self ++ [op]) self) ;;
  self <- get ;;
  ret (payload (Operation.op_id op) (Operation.op_type op)
         (Operation.position op) (Operation.text op) (Operation.length op)
         (DocumentModel.version (document self))).

(** [get_document_state()] *)
Definition get_document_state (self : t) : string * Z :=
  (DocumentModel.text (document self), DocumentModel.version (document self)).

End OTServer.

(** ** [transform] on objects

    [Operation] instances are mutable objects, and [transform] assigns to
    the fields of the two objects it returns.  Here the objects live in a
    store indexed by allocation order, an object reference is its index,
    and every field read and assignment goes through the store, so that
    what [transform] does to the objects it was handed is visible. *)

Module Heap.

Abbreviation loc := nat.
Abbreviation heap := (list Operation.t).

Inductive Fault : Type :=
  | Dangling (l : loc)
  | OutOfFuel.

(** Constructing an object appends it to the store. *)
Definition new (o : Operation.t) : M heap Fault loc :=
  fun h => (h ++ [o], Returned (length h)).

Definition read (l : loc) : M heap Fault Operation.t :=
  fun h =>
    match h !! l with
    | Some o => (h, Returned o)
    | None => (h, Raised (Dangling l))
    end.

(** The attribute assignments [l.position = p] and [l.length = n]. *)
Definition assign (l : loc) (f : Operation.t -> Operation.t)
    : M heap Fault unit :=
  fun h =>
    match h !! l with
    | Some o => (<[l := f o]> h, Returned tt)
    | None => (h, Raised (Dangling l))
    end.

Local Open Scope stmt_scope.

(** The [if]/[elif] chain of [transform], run on the two copies [A] and
    [B]; [self] is the function called in the delete-versus-insert
    branch. *)
Definition cases (self : loc -> loc -> M heap Fault (loc * loc))
    (A B : loc) : M heap Fault (loc * loc) :=
  a <- read A ;;
  b <- read B ;;
  if Operation.is_insert a && Operation.is_insert b then
    (if Operation.position a <? Operation.position b then
       assign B (fun o => Operation.set_position o
                   (Operation.position o + Py.len (Operation.text a)))
     else if Operation.position a >? Operation.position b then
       assign A (fun o => Operation.set_position o
                   (Operation.position o + Py.len (Operation.text b)))
     else
       assign B (fun o => Operation.set_position o
                   (Operation.position o + Py.len (Operation.text a)))) ;;
    ret (A, B)
  else if Operation.is_insert a && Operation.is_delete b then
    (if Operation.position a <=? Operation.position b then
       assign B (fun o => Operation.set_position o
                   (Operation.position o + Py.len (Operation.text a)))
     else
       let shift := Z.min (Operation.position a - Operation.position b)
                          (Operation.length b) in
       assign A (fun o => Operation.set_position o
                   (Operation.position o - shift))) ;;
    ret (A, B)
  else if Operation.is_delete a && Operation.is_insert b then
    r <- self B A ;;
    let '(Bprime, Aprime) := r in
    ret (Aprime, Bprime)
  else if Operation.is_delete a && Operation.is_delete b then
    (if Operation.position a <? Operation.position b then
       let overlap := (Operation.position a + Operation.length a)
                      - Operation.position b in
       if overlap >? 0 then
         assign B (fun o => Operation.set_position o (Operation.position a)) ;;
         assign B (fun o => Operation.set_length o
                     (Operation.length o + overlap))
       else ret tt
     else
       let overlap := (Operation.position b + Operation.length b)
                      - Operation.position a in
       if overlap >? 0 then
         assign A (fun o => Operation.set_position o (Operation.position b)) ;;
         assign A (fun o => Operation.set_length o
                     (Operation.length o + overlap))
       else ret tt) ;;
    ret (A, B)
  else ret (A, B).

(** [transform(opA, opB)]: build the two copies, then run the chain. *)
Fixpoint transform (fuel : nat) (opA opB : loc) : M heap Fault (loc * loc) :=
  match fuel with
  | O => raise OutOfFuel
  | S fuel' =>
    a <- read opA ;;
    A <- new (Operation.copy a) ;;
    b <- read opB ;;
    B <- new (Operation.copy b) ;;
    cases (transform fuel') A B
  end.

End Heap.

(** ** Operations as the clients build them, and runs of the server *)

(** [Operation("insert", position, text, 0, base_version, op_id)] *)
Definition insert_op (position : Z) (text : string) (base_version : Z)
    (op_id : option string) : Operation.t :=
  Operation.init "insert" position text 0 base_version op_id.

(** [Operation("delete", position, "", length, base_version, op_id)] *)
Definition delete_op (position length base_version : Z)
    (op_id : option string) : Operation.t :=
  Operation.init "delete" position "" length base_version op_id.

Definition known_kind (op : Operation.t) : bool :=
  Operation.is_insert op || Operation.is_delete op.

(** The document after [apply_operation] is called with each operation of
    [ops] in turn. *)
Fixpoint apply_all (ops : list Operation.t) (d : DocumentModel.t)
    : DocumentModel.t :=
  match ops with
  | [] => d
  | op :: rest => apply_all rest (fst (DocumentModel.apply_operation op d))
  end.

(** The two sides of the law [transform] is meant to satisfy, on a
    document whose text is [doc]: [B] then [A'] against [A] then [B']. *)
Definition commutes_on (doc : string) (A B : Operation.t) : Prop :=
  let '(A', B') := transform A B in
  DocumentModel.text (apply_all [B; A'] (DocumentModel.init doc))
  = DocumentModel.text (apply_all [A; B'] (DocumentModel.init doc)).

(** An operation lies within a text when its position, and for a delete
    the end of its range, are offsets of that text. *)
Definition in_bounds (op : Operation.t) (text : string) : Prop :=
  0 <= Operation.position op <= Py.len text
  /\ (Operation.is_delete op = true ->
      0 <= Operation.position op + Operation.length op <= Py.len text).

(** The server after [handle_incoming_operation] has been called with
    each operation of [ops] in turn, whatever the outcome of each call. *)
Fixpoint run (ops : list Operation.t) (s : OTServer.t) : OTServer.t :=
  match ops with
  | [] => s
  | op :: rest => run rest (fst (OTServer.handle_incoming_operation op s))
  end.

(** How many of those calls returned rather than raised. *)
Fixpoint applied (ops : list Operation.t) (s : OTServer.t) : nat :=
  match ops with
  | [] => O
  | op :: rest =>
    match OTServer.handle_incoming_operation op s with
    | (s', Returned _) => S (applied rest s')
    | (s', Raised _) => applied rest s'
    end
  end.

(** The version counts the entries of the history. *)
Definition consistent (s : OTServer.t) : Prop :=
  DocumentModel.version (OTServer.document s)
  = Z.of_nat (length (OTServer.history s)).

(** What [handle_incoming_operation] emits for the rebased operation
    [op] once the document is at [new_version]. *)
Definition payload_of (op : Operation.t) (new_version : Z)
    : OTServer.update_payload :=
  OTServer.payload (Operation.op_id op) (Operation.op_type op)
    (Operation.position op) (Operation.text op) (Operation.length op)
    new_version.

(** The text [apply_operation] leaves for an operation of known kind. *)
Definition spliced (op : Operation.t) (text : string) : string :=
  if Operation.is_insert op then
    Py.upto text (Operation.position op) +:+ Operation.text op
    +:+ Py.from text (Operation.position op)
  else
    Py.upto text (Operation.position op)
    +:+ Py.from text (Operation.position op + Operation.length op).

(** ** [main.py]: the socket handlers

    The payload of a [client_op] event is a dictionary with the keys
    listed in the handler's comment.  A field of [data] is [None] when its
    key is absent from the dictionary and holds the value otherwise. *)

Module Main.

Record data : Type := mk_data {
  d_op_type : option string;
  d_position : option Z;
  d_text : option string;
  d_length : option Z;
  d_base_version : option Z;
  d_opId : option string
}.

(** What a subscript [data[key]] raises on an absent key. *)
Inductive KeyError : Type :=
  | Key (key : string).

(** [data[key]] *)
Definition subscript {A : Type} (field : option A) (key : string)
    : outcome KeyError A :=
  match field with
  | Some v => Returned v
  | None => Raised (Key key)
  end.

(** The [ot.Operation(...)] expression of [client_op]: the keyword
    arguments are evaluated in the order they are written, so the first
    absent required key is the one reported.  The result is the operation
    handed to the task that runs [handle_incoming_operation]. *)
Definition client_op (d : data) : outcome KeyError Operation.t :=
  match subscript (d_op_type d) "op_type" with
  | Raised e => Raised e
  | Returned op_type =>
    match subscript (d_position d) "position" with
    | Raised e => Raised e
    | Returned position =>
      let text := default "" (d_text d) in
      let length := default 0 (d_length d) in
      match subscript (d_base_version d) "base_version" with
      | Raised e => Raised e
      | Returned base_version =>
        Returned (Operation.init op_type position text length base_version
                    (d_opId d))
      end
    end
  end.

(** [connect]: the state emitted as ['doc_state'] to the new client. *)
Definition connect (ot_server : OTServer.t) : string * Z :=
  OTServer.get_document_state ot_server.

End Main.

(** ** Notions used to state what the code preserves *)

(** The fields [transform] never assigns. *)
Definition signature (o : Operation.t) : string * string * Z :=
  (Operation.op_type o, Operation.text o, Operation.base_version o).

(** Neither the position nor the length is negative. *)
Definition well_formed (o : Operation.t) : Prop :=
  0 <= Operation.position o /\ 0 <= Operation.length o.

(** The operations of [ops] can be applied one after the other starting
    from [text]: each is an insert or a delete, lies within the text the
    previous ones leave, and, if a delete, has a non-negative length. *)
Fixpoint applicable (ops : list Operation.t) (text : string) : Prop :=
  match ops with
  | [] => True
  | op :: rest =>
    known_kind op = true
    /\ in_bounds op text
    /\ (Operation.is_delete op = true -> 0 <= Operation.length op)
    /\ applicable rest (spliced op text)
  end.

(** ** Tactics *)

(** Case split on the kind of an operation whose fields are variables:
    insert, delete, or neither. *)
Ltac split_kind ty :=
  destruct (String.eqb_spec ty "insert") as [-> | ?%String.eqb_neq];
  [ | destruct (String.eqb_spec ty "delete") as [-> | ?%String.eqb_neq] ].

(** Use the facts [split_kind] left about a kind that is neither. *)
Ltac other_kind :=
  repeat match goal with
         | H : (?t =? ?s)%string = false |- context [(?t =? ?s)%string] =>
           rewrite H
         end.

Ltac split_ifs :=
  repeat match goal with
         | |- context [if ?c then _ else _] => destruct c eqn:?
         end.

(** Turn the outcomes of integer comparisons into (in)equalities. *)
Ltac compare_to_prop :=
  repeat match goal with
         | H : (_ >? _) = _ |- _ => rewrite Z.gtb_ltb in H
         | H : (_ <? _) = true |- _ => apply Z.ltb_lt in H
         | H : (_ <? _) = false |- _ => apply Z.ltb_ge in H
         | H : (_ <=? _) = true |- _ => apply Z.leb_le in H
         | H : (_ <=? _) = false |- _ => apply Z.leb_gt in H
         end.

Create Rewrite HintDb pylen.

(** Bounds on a position in a spliced text, from the lengths of its
    pieces. *)
Ltac len_solve :=
  unfold Py.len in *;
  cbn [Operation.position Operation.length Operation.text];
  autorewrite with pylen; lia.

(** * Properties *)

(** ** Kinds *)

Lemma is_delete_not_insert (o : Operation.t) :
  Operation.is_delete o = true -> Operation.is_insert o = false.
Proof.
  unfold Operation.is_delete, Operation.is_insert.
  intros H%String.eqb_eq. rewrite H. reflexivity.
Qed.

Lemma copy_idempotent (o : Operation.t) :
  Operation.copy (Operation.copy o) = Operation.copy o.
Proof. reflexivity. Qed.

(** ** [transform]: the recursion is one call deep *)

Lemma transform_rec_enough (fuel : nat) (opA opB : Operation.t) :
  transform_rec (S (S fuel)) opA opB = Some (transform opA opB).
Proof.
  destruct opA as [ta pa xa la va ia], opB as [tb pb xb lb vb ib].
  unfold transform.
  cbn [transform_rec Operation.copy Operation.is_insert Operation.is_delete
       Operation.op_type].
  split_kind ta; split_kind tb; cbn; other_kind; cbn; split_ifs; reflexivity.
Qed.

Lemma transform_rec_total (fuel : nat) (opA opB : Operation.t) :
  (2 <= fuel)%nat -> transform_rec fuel opA opB = Some (transform opA opB).
Proof.
  destruct fuel as [ | [ | fuel ] ]; [ lia | lia | ].
  intros _. apply transform_rec_enough.
Qed.

(** [transform] only ever assigns [position] and [length]. *)
Lemma transform_keeps_kind_text_base (opA opB : Operation.t) :
  let '(A', B') := transform opA opB in
  (Operation.op_type A' = Operation.op_type opA
   /\ Operation.text A' = Operation.text opA
   /\ Operation.base_version A' = Operation.base_version opA)
  /\ (Operation.op_type B' = Operation.op_type opB
      /\ Operation.text B' = Operation.text opB
      /\ Operation.base_version B' = Operation.base_version opB).
Proof.
  destruct opA as [ta pa xa la va ia], opB as [tb pb xb lb vb ib].
  unfold transform.
  cbn [transform_rec Operation.copy Operation.is_insert Operation.is_delete
       Operation.op_type].
  split_kind ta; split_kind tb; cbn; other_kind; cbn; split_ifs; cbn; auto.
Qed.

(** The objects [transform] returns are built without an [op_id]. *)
Lemma transform_drops_op_id (opA opB : Operation.t) :
  Operation.op_id (fst (transform opA opB)) = None
  /\ Operation.op_id (snd (transform opA opB)) = None.
Proof.
  destruct opA as [ta pa xa la va ia], opB as [tb pb xb lb vb ib].
  unfold transform.
  cbn [transform_rec Operation.copy Operation.is_insert Operation.is_delete
       Operation.op_type].
  split_kind ta; split_kind tb; cbn; other_kind; cbn; split_ifs; cbn; auto.
Qed.

(** In the delete-versus-insert branch the pair is the swapped result of
    the nested call on the two copies. *)
Lemma transform_swap (a b : Operation.t) :
  Operation.is_delete a && Operation.is_insert b = true ->
  transform (Operation.copy b) (Operation.copy a)
  = (snd (transform a b), fst (transform a b))
  /\ Operation.is_delete (Operation.copy b)
     && Operation.is_insert (Operation.copy a) = false.
Proof.
  destruct a as [ta pa xa la va ia], b as [tb pb xb lb vb ib].
  unfold transform.
  cbn [transform_rec Operation.copy Operation.is_insert Operation.is_delete
       Operation.op_type].
  split_kind ta; split_kind tb; cbn; other_kind; cbn; try discriminate.
  intros _. split_ifs; split; reflexivity.
Qed.

Lemma rebase_keeps_kind (unseen_ops : list Operation.t) (op : Operation.t) :
  Operation.op_type (OTServer.rebase op unseen_ops) = Operation.op_type op.
Proof.
  revert op. induction unseen_ops as [ | old_op rest IH ]; intros op.
  - reflexivity.
  - cbn [OTServer.rebase]. rewrite IH.
    pose proof (transform_keeps_kind_text_base op old_op) as H.
    destruct (transform op old_op) as [A' B']. cbn. tauto.
Qed.

(** ** Slices *)

Section Slices.

(** Slices as Python evaluates them. *)
Example slices_of_abc :
  Py.upto "abc" 2 = "ab" /\ Py.from "abc" 2 = "c"
  /\ Py.upto "abc" (-1) = "ab" /\ Py.from "abc" (-1) = "c"
  /\ Py.upto "abc" 7 = "abc" /\ Py.from "abc" 7 = ""
  /\ Py.upto "abc" (-7) = "" /\ Py.from "abc" (-7) = "abc".
Proof. repeat split. Qed.

Example slices_of_a_list :
  Py.list_from [10; 20; 30] 1 = [20; 30]
  /\ Py.list_from [10; 20; 30] 5 = []
  /\ Py.list_from [10; 20; 30] (-1) = [30]
  /\ Py.list_from [10; 20; 30] (-9) = [10; 20; 30].
Proof. repeat split. Qed.

Lemma normalize_in_range (n : nat) (i : Z) :
  0 <= i <= Z.of_nat n -> Py.normalize n i = Z.to_nat i.
Proof.
  intros [Hlo Hhi]. unfold Py.normalize.
  destruct (Z.ltb_spec i 0); [ lia | ]. f_equal. lia.
Qed.

Lemma normalize_beyond (n : nat) (i : Z) :
  Z.of_nat n <= i -> Py.normalize n i = n.
Proof.
  intros Hge. unfold Py.normalize.
  destruct (Z.ltb_spec i 0); lia.
Qed.

Lemma normalize_negative (n : nat) (i : Z) :
  i < 0 -> Py.normalize n i = (n - Z.to_nat (- i))%nat.
Proof.
  intros Hneg. unfold Py.normalize.
  destruct (Z.ltb_spec i 0); lia.
Qed.

Lemma list_from_beyond {A : Type} (l : list A) (start : Z) :
  Z.of_nat (length l) <= start -> Py.list_from l start = [].
Proof.
  intros Hge. unfold Py.list_from.
  rewrite normalize_beyond by exact Hge. apply drop_all.
Qed.

Lemma list_from_negative {A : Type} (l : list A) (start : Z) :
  start < 0 ->
  Py.list_from l start = drop (length l - Z.to_nat (- start)) l.
Proof.
  intros Hneg. unfold Py.list_from.
  rewrite normalize_negative by exact Hneg. reflexivity.
Qed.

Lemma str_take_length (n : nat) (s : string) :
  String.length (Py.str_take n s) = Nat.min n (String.length s).
Proof.
  revert s. induction n as [ | n IH ]; intros [ | c s ]; cbn; auto.
Qed.

Lemma str_drop_length (n : nat) (s : string) :
  String.length (Py.str_drop n s) = (String.length s - n)%nat.
Proof.
  revert s. induction n as [ | n IH ]; intros [ | c s ]; cbn; auto.
Qed.

Lemma str_app_cons (c : ascii) (s1 s2 : string) :
  String c s1 +:+ s2 = String c (s1 +:+ s2).
Proof. reflexivity. Qed.

Lemma str_app_length (s1 s2 : string) :
  String.length (s1 +:+ s2) = (String.length s1 + String.length s2)%nat.
Proof.
  induction s1 as [ | c s1 IH ]; [ reflexivity | ].
  rewrite str_app_cons. cbn. f_equal. exact IH.
Qed.

Lemma str_take_drop (n : nat) (s : string) :
  Py.str_take n s +:+ Py.str_drop n s = s.
Proof.
  revert s. induction n as [ | n IH ]; intros [ | c s ]; try reflexivity.
  cbn [Py.str_take Py.str_drop]. rewrite str_app_cons. f_equal. apply IH.
Qed.

Lemma str_app_assoc (s1 s2 s3 : string) :
  (s1 +:+ s2) +:+ s3 = s1 +:+ (s2 +:+ s3).
Proof.
  induction s1 as [ | c s1 IH ]; [ reflexivity | ].
  rewrite !str_app_cons. f_equal. exact IH.
Qed.

Lemma str_app_empty_r (s : string) : s +:+ "" = s.
Proof.
  induction s as [ | c s IH ]; [ reflexivity | ].
  rewrite str_app_cons. f_equal. exact IH.
Qed.

Lemma str_app_empty_l (s : string) : "" +:+ s = s.
Proof. reflexivity. Qed.

Lemma str_take_app (n : nat) (s1 s2 : string) :
  Py.str_take n (s1 +:+ s2)
  = Py.str_take n s1 +:+ Py.str_take (n - String.length s1) s2.
Proof.
  revert n. induction s1 as [ | c s1 IH ]; intros n.
  - cbn [String.length]. rewrite Nat.sub_0_r.
    destruct n; reflexivity.
  - destruct n as [ | n ]; [ reflexivity | ].
    rewrite str_app_cons. cbn [Py.str_take String.length Nat.sub].
    rewrite str_app_cons. f_equal. apply IH.
Qed.

Lemma str_drop_app (n : nat) (s1 s2 : string) :
  Py.str_drop n (s1 +:+ s2)
  = Py.str_drop n s1 +:+ Py.str_drop (n - String.length s1) s2.
Proof.
  revert n. induction s1 as [ | c s1 IH ]; intros n.
  - cbn [String.length]. rewrite Nat.sub_0_r.
    destruct n; reflexivity.
  - destruct n as [ | n ]; [ reflexivity | ].
    rewrite str_app_cons. cbn [Py.str_drop String.length Nat.sub].
    apply IH.
Qed.

Lemma str_take_all (n : nat) (s : string) :
  (String.length s <= n)%nat -> Py.str_take n s = s.
Proof.
  revert n. induction s as [ | c s IH ]; intros [ | n ] Hn; cbn in *;
    try reflexivity; try lia.
  f_equal. apply IH. lia.
Qed.

Lemma str_drop_all (n : nat) (s : string) :
  (String.length s <= n)%nat -> Py.str_drop n s = "".
Proof.
  revert n. induction s as [ | c s IH ]; intros [ | n ] Hn; cbn in *;
    try reflexivity; try lia.
  apply IH. lia.
Qed.

Lemma str_take_none (n : nat) (s : string) : n = O -> Py.str_take n s = "".
Proof. intros ->. reflexivity. Qed.

Lemma str_drop_none (n : nat) (s : string) : n = O -> Py.str_drop n s = s.
Proof. intros ->. destruct s; reflexivity. Qed.

(** A text cut at one offset, and at two. *)
Lemma str_cut2 (p : nat) (d : string) :
  (p <= String.length d)%nat ->
  exists x z : string, d = x +:+ z /\ String.length x = p.
Proof.
  intros Hp. exists (Py.str_take p d), (Py.str_drop p d).
  rewrite str_take_drop, str_take_length. split; [ reflexivity | lia ].
Qed.

Lemma str_cut3 (p q : nat) (d : string) :
  (p <= q <= String.length d)%nat ->
  exists x y z : string,
    d = x +:+ y +:+ z /\ String.length x = p /\ String.length y = (q - p)%nat.
Proof.
  intros [Hpq Hq].
  exists (Py.str_take p d), (Py.str_take (q - p) (Py.str_drop p d)),
         (Py.str_drop (q - p) (Py.str_drop p d)).
  rewrite !str_take_drop, str_take_length, str_take_length, str_drop_length.
  repeat split; lia.
Qed.

(** Splicing twice into a text, in either order: two inserts; an insert
    at or before the start of a deleted range; an insert at or after its
    end.  Once the text is cut at the offsets involved, every take and
    drop either keeps a piece whole or discards it. *)
Lemma splice_algebra :
  (forall (p q : nat) (tA tB d : string),
     (p <= q <= String.length d)%nat ->
     Py.str_take p (Py.str_take q d +:+ tB +:+ Py.str_drop q d) +:+ tA
     +:+ Py.str_drop p (Py.str_take q d +:+ tB +:+ Py.str_drop q d)
     = Py.str_take (q + String.length tA)
         (Py.str_take p d +:+ tA +:+ Py.str_drop p d) +:+ tB
       +:+ Py.str_drop (q + String.length tA)
             (Py.str_take p d +:+ tA +:+ Py.str_drop p d))
  /\ (forall (p q n : nat) (t d : string),
        (p <= q)%nat -> (q + n <= String.length d)%nat ->
        Py.str_take p (Py.str_take q d +:+ Py.str_drop (q + n) d) +:+ t
        +:+ Py.str_drop p (Py.str_take q d +:+ Py.str_drop (q + n) d)
        = Py.str_take (q + String.length t)
            (Py.str_take p d +:+ t +:+ Py.str_drop p d)
          +:+ Py.str_drop (q + String.length t + n)
                (Py.str_take p d +:+ t +:+ Py.str_drop p d))
  /\ (forall (p q n : nat) (t d : string),
        (q + n <= p <= String.length d)%nat ->
        Py.str_take (p - n) (Py.str_take q d +:+ Py.str_drop (q + n) d) +:+ t
        +:+ Py.str_drop (p - n) (Py.str_take q d +:+ Py.str_drop (q + n) d)
        = Py.str_take q (Py.str_take p d +:+ t +:+ Py.str_drop p d)
          +:+ Py.str_drop (q + n)
                (Py.str_take p d +:+ t +:+ Py.str_drop p d)).
Proof.
  split; [ | split ].
  1: intros p q tA tB d H;
     destruct (str_cut3 p q d H) as (x & y & z & -> & Hx & Hy).
  2: intros p q n t d Hpq Hq;
     destruct (str_cut3 p q d) as (x & y & z & -> & Hx & Hy); [ lia | ];
     assert (Hz : (n <= String.length z)%nat)
       by (rewrite !str_app_length in Hq; lia);
     destruct (str_cut2 n z Hz) as (w & v & -> & Hw).
  3: intros p q n t d [Hqp Hp];
     destruct (str_cut3 q (q + n) d) as (x & y & z & -> & Hx & Hy); [ lia | ];
     assert (Hz : (p - (q + n) <= String.length z)%nat)
       by (rewrite !str_app_length in Hp; lia);
     destruct (str_cut2 (p - (q + n)) z Hz) as (w & v & -> & Hw).
  all: repeat match goal with
       | |- context [Py.str_take ?n (?s1 +:+ ?s2)] =>
         rewrite (str_take_app n s1 s2)
       | |- context [Py.str_drop ?n (?s1 +:+ ?s2)] =>
         rewrite (str_drop_app n s1 s2)
       | |- context [String.length (?s1 +:+ ?s2)] =>
         rewrite (str_app_length s1 s2)
       | |- context [Py.str_take ?n ?s] =>
         first [ rewrite (str_take_all n s) by (cbn [String.length]; lia)
               | rewrite (str_take_none n s) by (cbn [String.length]; lia) ]
       | |- context [Py.str_drop ?n ?s] =>
         first [ rewrite (str_drop_all n s) by (cbn [String.length]; lia)
               | rewrite (str_drop_none n s) by (cbn [String.length]; lia) ]
       | |- context [?s +:+ ""] => rewrite (str_app_empty_r s)
       | |- context ["" +:+ ?s] => rewrite (str_app_empty_l s)
       | |- context [(?s1 +:+ ?s2) +:+ ?s3] => rewrite (str_app_assoc s1 s2 s3)
       end.
  all: reflexivity.
Qed.

End Slices.

#[local] Hint Rewrite str_app_length str_take_length str_drop_length : pylen.

(** ** [apply_operation] and [handle_incoming_operation], case by case *)

Lemma known_kind_copy_free (a b : Operation.t) :
  Operation.op_type a = Operation.op_type b -> known_kind a = known_kind b.
Proof.
  unfold known_kind, Operation.is_insert, Operation.is_delete.
  intros ->. reflexivity.
Qed.

Lemma apply_operation_known (op : Operation.t) (d : DocumentModel.t) :
  known_kind op = true ->
  DocumentModel.apply_operation op d
  = (DocumentModel.mk (spliced op (DocumentModel.text d))
       (DocumentModel.version d + 1), Returned tt).
Proof.
  unfold known_kind, DocumentModel.apply_operation, spliced, bind, modify.
  destruct (Operation.is_insert op); [ reflexivity | ].
  destruct (Operation.is_delete op); [ reflexivity | discriminate ].
Qed.

Lemma apply_operation_unknown (op : Operation.t) (d : DocumentModel.t) :
  known_kind op = false ->
  DocumentModel.apply_operation op d
  = (d, Raised (ValueError "Unknown operation type.")).
Proof.
  unfold known_kind, DocumentModel.apply_operation, bind, raise.
  destruct (Operation.is_insert op); [ discriminate | ].
  destruct (Operation.is_delete op); [ discriminate | reflexivity ].
Qed.

Lemma handle_known (op : Operation.t) (s : OTServer.t) :
  known_kind op = true ->
  let op' := OTServer.rebase op
               (Py.list_from (OTServer.history s) (Operation.base_version op)) in
  let v' := DocumentModel.version (OTServer.document s) + 1 in
  OTServer.handle_incoming_operation op s
  = (OTServer.mk
       (DocumentModel.mk
          (spliced op' (DocumentModel.text (OTServer.document s))) v')
       (OTServer.history s ++ [op']),
     Returned (payload_of op' v')).
Proof.
  intros Hk op' v'.
  assert (Hk' : known_kind op' = true).
  { rewrite <- Hk. apply known_kind_copy_free, rebase_keeps_kind. }
  unfold OTServer.handle_incoming_operation, bind, get, zoom.
  fold op'. rewrite (apply_operation_known _ _ Hk'). reflexivity.
Qed.

Lemma handle_unknown (op : Operation.t) (s : OTServer.t) :
  known_kind op = false ->
  OTServer.handle_incoming_operation op s
  = (s, Raised (ValueError "Unknown operation type.")).
Proof.
  intros Hk.
  set (op' := OTServer.rebase op
                (Py.list_from (OTServer.history s) (Operation.base_version op))).
  assert (Hk' : known_kind op' = false).
  { rewrite <- Hk. apply known_kind_copy_free, rebase_keeps_kind. }
  unfold OTServer.handle_incoming_operation, bind, get, zoom.
  fold op'. rewrite (apply_operation_unknown _ _ Hk').
  destruct s. reflexivity.
Qed.

(** ** The document model *)

(** C10: for every operation whose kind is neither insert nor delete,
    [apply_operation] raises [ValueError] and leaves the text and the
    version counter as they were; the increment is not reached. *)
Theorem apply_operation_unknown_kind_is_atomic
    (d : DocumentModel.t) (op : Operation.t) :
  Operation.op_type op <> "insert" ->
  Operation.op_type op <> "delete" ->
  exists d' : DocumentModel.t,
    DocumentModel.apply_operation op d
    = (d', Raised (ValueError "Unknown operation type."))
    /\ DocumentModel.text d' = DocumentModel.text d
    /\ DocumentModel.version d' = DocumentModel.version d.
Proof.
  intros Hi%String.eqb_neq Hd%String.eqb_neq. exists d.
  split; [ | split; reflexivity ].
  apply apply_operation_unknown.
  unfold known_kind, Operation.is_insert, Operation.is_delete.
  rewrite Hi, Hd. reflexivity.
Qed.

Lemma apply_operation_unknown_kind_is_atomic_witness :
  Operation.op_type (Operation.init "replace" 1 "x" 1 0 None) <> "insert"
  /\ Operation.op_type (Operation.init "replace" 1 "x" 1 0 None) <> "delete"
  /\ exists d' : DocumentModel.t,
       DocumentModel.apply_operation (Operation.init "replace" 1 "x" 1 0 None)
         (DocumentModel.mk "abc" 4)
       = (d', Raised (ValueError "Unknown operation type."))
       /\ DocumentModel.text d' = "abc"
       /\ DocumentModel.version d' = 4.
Proof.
  split; [ discriminate | split; [ discriminate | ] ].
  apply (apply_operation_unknown_kind_is_atomic (DocumentModel.mk "abc" 4)
           (Operation.init "replace" 1 "x" 1 0 None)); discriminate.
Defined.

(** C4, as stated, fails: an insert at position 100 into ["abc"] and a
    delete of 50 characters at position 2 are both out of bounds, and
    [apply_operation] returns normally on both. *)
Lemma apply_operation_out_of_bounds_returns :
  (~ in_bounds (insert_op 100 "x" 0 None) "abc"
   /\ DocumentModel.apply_operation (insert_op 100 "x" 0 None)
        (DocumentModel.init "abc")
      = (DocumentModel.mk "abcx" 1, Returned tt))
  /\ (~ in_bounds (delete_op 2 50 0 None) "abc"
      /\ DocumentModel.apply_operation (delete_op 2 50 0 None)
           (DocumentModel.init "abc")
         = (DocumentModel.mk "ab" 1, Returned tt)).
Proof.
  split; (split; [ | reflexivity ]).
  - intros [H _]. vm_compute in H. tauto.
  - intros [_ H]. specialize (H eq_refl). vm_compute in H. tauto.
Qed.

(** C4, amended: [apply_operation] has no bounds check.  For every insert
    or delete it returns normally and increments the version, whatever
    the position and length; when the operation is in bounds the new text
    is [text[:position] + op.text + text[position:]] for an insert and
    [text[:position] + text[position + length:]] for a delete, cut at
    exactly those offsets. *)
Theorem apply_operation_never_rejects_bounds
    (d : DocumentModel.t) (op : Operation.t) :
  known_kind op = true ->
  exists text' : string,
    DocumentModel.apply_operation op d
    = (DocumentModel.mk text' (DocumentModel.version d + 1), Returned tt)
    /\ (in_bounds op (DocumentModel.text d) ->
        Operation.is_insert op = true ->
        text' = Py.str_take (Z.to_nat (Operation.position op))
                  (DocumentModel.text d)
                +:+ Operation.text op
                +:+ Py.str_drop (Z.to_nat (Operation.position op))
                      (DocumentModel.text d))
    /\ (in_bounds op (DocumentModel.text d) ->
        Operation.is_delete op = true ->
        text' = Py.str_take (Z.to_nat (Operation.position op))
                  (DocumentModel.text d)
                +:+ Py.str_drop
                      (Z.to_nat (Operation.position op + Operation.length op))
                      (DocumentModel.text d)).
Proof.
  intros Hk. exists (spliced op (DocumentModel.text d)).
  split; [ apply apply_operation_known, Hk | ].
  unfold spliced, Py.upto, Py.from, in_bounds, Py.len.
  split.
  - intros [Hp _] ->. rewrite normalize_in_range by exact Hp. reflexivity.
  - intros [Hp Hq] Hdel. rewrite (is_delete_not_insert _ Hdel).
    rewrite !normalize_in_range by auto. reflexivity.
Qed.

Lemma apply_operation_never_rejects_bounds_witness :
  known_kind (delete_op 1 3 0 None) = true
  /\ exists text' : string,
       DocumentModel.apply_operation (delete_op 1 3 0 None)
         (DocumentModel.init "abcdef")
       = (DocumentModel.mk text' 1, Returned tt)
       /\ (in_bounds (delete_op 1 3 0 None) "abcdef" ->
           Operation.is_delete (delete_op 1 3 0 None) = true ->
           text' = "aef").
Proof.
  split; [ reflexivity | ].
  destruct (apply_operation_never_rejects_bounds (DocumentModel.init "abcdef")
              (delete_op 1 3 0 None) eq_refl) as (text' & Happ & _ & Hdel).
  exists text'. split; [ exact Happ | ].
  intros Hb Hd. rewrite (Hdel Hb Hd). reflexivity.
Defined.

(** In-bounds inserts lengthen the text by [len(op.text)], and in-bounds
    deletes of a non-negative length shorten it by that length. *)
Lemma spliced_length (op : Operation.t) (text : string) :
  in_bounds op text ->
  (Operation.is_insert op = true ->
   Py.len (spliced op text) = Py.len text + Py.len (Operation.text op))
  /\ (Operation.is_delete op = true -> 0 <= Operation.length op ->
      Py.len (spliced op text) = Py.len text - Operation.length op).
Proof.
  unfold in_bounds, spliced, Py.upto, Py.from, Py.len. intros [Hp Hq]. split.
  - intros ->. rewrite normalize_in_range by exact Hp.
    rewrite !str_app_length, str_take_length, str_drop_length. lia.
  - intros Hdel Hlen. rewrite (is_delete_not_insert _ Hdel).
    specialize (Hq Hdel). rewrite !normalize_in_range by auto.
    rewrite !str_app_length, str_take_length, str_drop_length. lia.
Qed.

(** ** The server: version and history *)

Lemma init_consistent : consistent OTServer.init.
Proof. reflexivity. Qed.

(** One call either commits (version and history both grow by one) or
    raises and changes nothing. *)
Lemma handle_step (op : Operation.t) (s : OTServer.t) :
  let (s', r) := OTServer.handle_incoming_operation op s in
  match r with
  | Returned p =>
    DocumentModel.version (OTServer.document s')
    = DocumentModel.version (OTServer.document s) + 1
    /\ length (OTServer.history s') = S (length (OTServer.history s))
    /\ OTServer.new_version p = DocumentModel.version (OTServer.document s')
  | Raised _ => s' = s
  end.
Proof.
  destruct (known_kind op) eqn:Hk.
  - rewrite (handle_known _ _ Hk). cbn.
    rewrite length_app. cbn. split; [ reflexivity | split; [ lia | reflexivity ] ].
  - rewrite (handle_unknown _ _ Hk). reflexivity.
Qed.

Lemma handle_preserves_consistent (op : Operation.t) (s : OTServer.t) :
  consistent s -> consistent (fst (OTServer.handle_incoming_operation op s)).
Proof.
  unfold consistent. intros Hs.
  pose proof (handle_step op s) as H.
  destruct (OTServer.handle_incoming_operation op s) as [s' [p | e]]; cbn.
  - destruct H as (Hv & Hl & _). lia.
  - subst s'. exact Hs.
Qed.

Lemma run_consistent (ops : list Operation.t) (s : OTServer.t) :
  consistent s ->
  consistent (run ops s)
  /\ DocumentModel.version (OTServer.document (run ops s))
     = DocumentModel.version (OTServer.document s) + Z.of_nat (applied ops s).
Proof.
  revert s. induction ops as [ | op rest IH ]; intros s Hs.
  - cbn. split; [ exact Hs | lia ].
  - cbn [run applied].
    pose proof (handle_preserves_consistent op s Hs) as Hs'.
    pose proof (handle_step op s) as Hstep.
    destruct (OTServer.handle_incoming_operation op s) as [s' [p | e]];
      cbn [fst] in *; destruct (IH s' Hs') as [Hc Hv];
      (split; [ exact Hc | ]).
    + destruct Hstep as (Hv' & _). lia.
    + subst s'. exact Hv.
Qed.

(** C7: after any sequence of [handle_incoming_operation] calls from the
    initial server, the version equals the number of calls that applied
    their operation and equals the length of the history; a further call
    raises the version by exactly one when it succeeds, leaves it alone
    when it raises, and so never lowers it. *)
Theorem version_counts_applied_operations (ops : list Operation.t) :
  let s := run ops OTServer.init in
  let v := DocumentModel.version (OTServer.document s) in
  v = Z.of_nat (applied ops OTServer.init)
  /\ v = Z.of_nat (length (OTServer.history s))
  /\ forall op : Operation.t,
       let (s', r) := OTServer.handle_incoming_operation op s in
       let v' := DocumentModel.version (OTServer.document s') in
       v <= v'
       /\ match r with
          | Returned _ => v' = v + 1
          | Raised _ => v' = v
          end.
Proof.
  intros s v.
  destruct (run_consistent ops OTServer.init init_consistent) as [Hc Hv].
  fold s in Hc, Hv. fold v in Hv. cbn in Hv.
  split; [ exact Hv | split; [ exact Hc | ] ].
  intros op. pose proof (handle_step op s) as Hstep.
  destruct (OTServer.handle_incoming_operation op s) as [s' [p | e]].
  - destruct Hstep as (Hv' & _). fold v in Hv'. cbn zeta. lia.
  - subst s'. cbn zeta. fold v. lia.
Qed.

(** ** The server: base versions outside the history *)

(** C2, as stated, fails: on the initial server (version 0), an insert
    with base version 7 is not rejected; it is applied. *)
Lemma future_base_version_not_rejected :
  DocumentModel.version (OTServer.document OTServer.init)
  < Operation.base_version (insert_op 5 "a" 7 None)
  /\ OTServer.handle_incoming_operation (insert_op 5 "a" 7 None) OTServer.init
     = (OTServer.mk (DocumentModel.mk "Helloa OT!" 1) [insert_op 5 "a" 7 None],
        Returned (payload_of (insert_op 5 "a" 7 None) 1))
  /\ ~ (exists e : Exception,
          OTServer.handle_incoming_operation (insert_op 5 "a" 7 None)
            OTServer.init
          = (OTServer.init, Raised e)).
Proof.
  split; [ reflexivity | split; [ reflexivity | ] ].
  intros [e H]. vm_compute in H. discriminate H.
Qed.

(** C2, amended: the server has no check of the base version.  When it is
    strictly greater than the current version, the slice of unseen
    operations is empty, so an insert or delete is applied as submitted:
    the version grows by one, the operation itself is appended to the
    history and emitted.  Only an operation of unknown kind fails (with
    [ValueError]), leaving the server as it was. *)
Theorem future_base_version_is_applied_untransformed
    (s : OTServer.t) (op : Operation.t) :
  consistent s ->
  DocumentModel.version (OTServer.document s) < Operation.base_version op ->
  OTServer.handle_incoming_operation op s
  = if known_kind op then
      (OTServer.mk
         (DocumentModel.mk
            (spliced op (DocumentModel.text (OTServer.document s)))
            (DocumentModel.version (OTServer.document s) + 1))
         (OTServer.history s ++ [op]),
       Returned
         (payload_of op (DocumentModel.version (OTServer.document s) + 1)))
    else (s, Raised (ValueError "Unknown operation type.")).
Proof.
  unfold consistent. intros Hs Hv.
  destruct (known_kind op) eqn:Hk.
  - rewrite (handle_known _ _ Hk).
    rewrite list_from_beyond by lia. reflexivity.
  - apply handle_unknown, Hk.
Qed.

Lemma future_base_version_is_applied_untransformed_witness :
  consistent OTServer.init
  /\ DocumentModel.version (OTServer.document OTServer.init)
     < Operation.base_version (delete_op 0 6 3 (Some "d1"))
  /\ OTServer.handle_incoming_operation (delete_op 0 6 3 (Some "d1"))
       OTServer.init
     = (OTServer.mk (DocumentModel.mk "OT!" 1) [delete_op 0 6 3 (Some "d1")],
        Returned (payload_of (delete_op 0 6 3 (Some "d1")) 1)).
Proof.
  split; [ reflexivity | split; [ reflexivity | ] ].
  rewrite (future_base_version_is_applied_untransformed OTServer.init
             (delete_op 0 6 3 (Some "d1")) eq_refl eq_refl).
  reflexivity.
Defined.

(** C6, as stated, fails: with one operation in the history, an insert
    with base version -1 is not rejected; it is rebased against the last
    history entry and applied. *)
Lemma negative_base_version_not_rejected :
  Operation.base_version (insert_op 0 "b" (-1) None) < 0
  /\ OTServer.handle_incoming_operation (insert_op 0 "b" (-1) None)
       (OTServer.mk (DocumentModel.mk "Helloa OT!" 1) [insert_op 5 "a" 0 None])
     = (OTServer.mk (DocumentModel.mk "bHelloa OT!" 2)
          [insert_op 5 "a" 0 None; insert_op 0 "b" (-1) None],
        Returned (payload_of (insert_op 0 "b" (-1) None) 2))
  /\ ~ (exists e : Exception,
          OTServer.handle_incoming_operation (insert_op 0 "b" (-1) None)
            (OTServer.mk (DocumentModel.mk "Helloa OT!" 1)
               [insert_op 5 "a" 0 None])
          = (OTServer.mk (DocumentModel.mk "Helloa OT!" 1)
               [insert_op 5 "a" 0 None], Raised e)).
Proof.
  split; [ reflexivity | split; [ reflexivity | ] ].
  intros [e H]. vm_compute in H. discriminate H.
Qed.

(** C6, amended: the server has no check of the sign of the base version.
    A negative base version [-k] selects, as a Python slice does, the
    last [k] operations of the history (all of it when it is shorter) as
    the unseen ones; an insert or delete is rebased against them,
    applied, appended to the history and emitted, and the version grows
    by one.  Only an operation of unknown kind fails (with [ValueError]),
    leaving the server as it was. *)
Theorem negative_base_version_rebases_from_the_end
    (s : OTServer.t) (op : Operation.t) :
  Operation.base_version op < 0 ->
  OTServer.handle_incoming_operation op s
  = let unseen_ops :=
      drop (length (OTServer.history s)
            - Z.to_nat (- Operation.base_version op))
           (OTServer.history s) in
    let op' := OTServer.rebase op unseen_ops in
    if known_kind op then
      (OTServer.mk
         (DocumentModel.mk
            (spliced op' (DocumentModel.text (OTServer.document s)))
            (DocumentModel.version (OTServer.document s) + 1))
         (OTServer.history s ++ [op']),
       Returned
         (payload_of op' (DocumentModel.version (OTServer.document s) + 1)))
    else (s, Raised (ValueError "Unknown operation type.")).
Proof.
  intros Hneg. cbn zeta.
  destruct (known_kind op) eqn:Hk.
  - rewrite (handle_known _ _ Hk).
    rewrite list_from_negative by exact Hneg. reflexivity.
  - apply handle_unknown, Hk.
Qed.

Lemma negative_base_version_rebases_from_the_end_witness :
  Operation.base_version (insert_op 7 "c" (-1) (Some "c1")) < 0
  /\ OTServer.handle_incoming_operation (insert_op 7 "c" (-1) (Some "c1"))
       (OTServer.mk (DocumentModel.mk "bHelloa OT!" 2)
          [insert_op 5 "a" 0 None; insert_op 0 "b" 0 None])
     = (OTServer.mk (DocumentModel.mk "bHelloa cOT!" 3)
          [insert_op 5 "a" 0 None; insert_op 0 "b" 0 None;
           insert_op 8 "c" (-1) None],
        Returned (payload_of (insert_op 8 "c" (-1) None) 3)).
Proof.
  split; [ reflexivity | ].
  rewrite (negative_base_version_rebases_from_the_end
             (OTServer.mk (DocumentModel.mk "bHelloa OT!" 2)
                [insert_op 5 "a" 0 None; insert_op 0 "b" 0 None])
             (insert_op 7 "c" (-1) (Some "c1")) eq_refl).
  reflexivity.
Defined.

(** ** The scenarios *)

(** C9: from ["Hello OT!"] at version 0, reconciling X = insert ["a"] at 5
    (base version 0) applies X unchanged and gives ["Helloa OT!"] at
    version 1; reconciling then Y = insert ["b"] at 0 (base version 0)
    rebases Y without moving it and gives ["bHelloa OT!"] at version 2. *)
Theorem independent_inserts_scenario (idX idY : option string) :
  OTServer.get_document_state OTServer.init = ("Hello OT!", 0)
  /\ OTServer.handle_incoming_operation (insert_op 5 "a" 0 idX) OTServer.init
     = (OTServer.mk (DocumentModel.mk "Helloa OT!" 1) [insert_op 5 "a" 0 idX],
        Returned (payload_of (insert_op 5 "a" 0 idX) 1))
  /\ OTServer.rebase (insert_op 0 "b" 0 idY) [insert_op 5 "a" 0 idX]
     = insert_op 0 "b" 0 None
  /\ OTServer.handle_incoming_operation (insert_op 0 "b" 0 idY)
       (OTServer.mk (DocumentModel.mk "Helloa OT!" 1) [insert_op 5 "a" 0 idX])
     = (OTServer.mk (DocumentModel.mk "bHelloa OT!" 2)
          [insert_op 5 "a" 0 idX; insert_op 0 "b" 0 None],
        Returned (payload_of (insert_op 0 "b" 0 None) 2)).
Proof. repeat split. Qed.

(** C3: on ["abcdef"], after X = delete 3 at 1 is reconciled, Y = delete 2
    at 2 (base version 0) is rebased to a delete of 4 characters at
    position 1; applied to ["aef"] it removes ["ef"], which neither client
    deleted, and the final text is ["a"] where the union of the two
    ranges leaves ["aef"]. *)
Theorem overlapping_deletes_scenario (idX idY : option string) :
  OTServer.handle_incoming_operation (delete_op 1 3 0 idX)
    (OTServer.mk (DocumentModel.init "abcdef") [])
  = (OTServer.mk (DocumentModel.mk "aef" 1) [delete_op 1 3 0 idX],
     Returned (payload_of (delete_op 1 3 0 idX) 1))
  /\ OTServer.rebase (delete_op 2 2 0 idY) [delete_op 1 3 0 idX]
     = delete_op 1 4 0 None
  /\ OTServer.handle_incoming_operation (delete_op 2 2 0 idY)
       (OTServer.mk (DocumentModel.mk "aef" 1) [delete_op 1 3 0 idX])
     = (OTServer.mk (DocumentModel.mk "a" 2)
          [delete_op 1 3 0 idX; delete_op 1 4 0 None],
        Returned (payload_of (delete_op 1 4 0 None) 2))
  /\ "a" <> "aef".
Proof. repeat split. discriminate. Qed.

(** ** The operation id across a rebase *)

Lemma rebase_drops_op_id (unseen_ops : list Operation.t) (op : Operation.t) :
  unseen_ops <> [] ->
  Operation.op_id (OTServer.rebase op unseen_ops) = None.
Proof.
  revert op. induction unseen_ops as [ | old_op rest IH ]; intros op Hne.
  - contradiction.
  - cbn [OTServer.rebase]. destruct rest as [ | next rest ].
    + cbn [OTServer.rebase]. apply transform_drops_op_id.
    + apply IH. discriminate.
Qed.

(** An operation submitted against the current version is emitted with
    the id it came with. *)
Lemma handle_current_echoes_op_id (op : Operation.t) (s : OTServer.t) :
  consistent s ->
  Operation.base_version op = DocumentModel.version (OTServer.document s) ->
  known_kind op = true ->
  exists (s' : OTServer.t) (p : OTServer.update_payload),
    OTServer.handle_incoming_operation op s = (s', Returned p)
    /\ OTServer.opId p = Operation.op_id op.
Proof.
  unfold consistent. intros Hs Hv Hk.
  rewrite (handle_known _ _ Hk).
  rewrite list_from_beyond by lia.
  eexists _, _. split; reflexivity.
Qed.

(** C5: after X = insert ["a"] at 5 is reconciled, Y = insert ["b"] at 0
    submitted with base version 0 and operation id ["y1"] is rebased
    through one [transform] step, and the emitted payload carries no
    operation id. *)
Theorem rebased_payload_drops_operation_id :
  Operation.op_id (insert_op 0 "b" 0 (Some "y1")) = Some "y1"
  /\ exists (s' : OTServer.t) (p : OTServer.update_payload),
       OTServer.handle_incoming_operation (insert_op 0 "b" 0 (Some "y1"))
         (OTServer.mk (DocumentModel.mk "Helloa OT!" 1)
            [insert_op 5 "a" 0 (Some "x1")])
       = (s', Returned p)
       /\ OTServer.opId p = None
       /\ OTServer.new_version p = 2.
Proof.
  split; [ reflexivity | ].
  exists (OTServer.mk (DocumentModel.mk "bHelloa OT!" 2)
            [insert_op 5 "a" 0 (Some "x1"); insert_op 0 "b" 0 None]),
         (payload_of (insert_op 0 "b" 0 None) 2).
  split; [ reflexivity | split; reflexivity ].
Qed.

(** ** [transform] and the order of application *)

(** Where the two orders agree. *)

Lemma apply_two (doc : string) (o1 o2 : Operation.t) :
  known_kind o1 = true -> known_kind o2 = true ->
  DocumentModel.text (apply_all [o1; o2] (DocumentModel.init doc))
  = spliced o2 (spliced o1 doc).
Proof.
  intros H1 H2. cbn [apply_all].
  rewrite (apply_operation_known _ _ H1). cbn [fst].
  rewrite (apply_operation_known _ _ H2). reflexivity.
Qed.

Lemma spliced_insert (op : Operation.t) (s : string) :
  Operation.is_insert op = true ->
  0 <= Operation.position op <= Py.len s ->
  spliced op s
  = Py.str_take (Z.to_nat (Operation.position op)) s +:+ Operation.text op
    +:+ Py.str_drop (Z.to_nat (Operation.position op)) s.
Proof.
  intros Hi Hp. unfold spliced, Py.upto, Py.from. rewrite Hi.
  rewrite normalize_in_range by exact Hp. reflexivity.
Qed.

Lemma spliced_delete (op : Operation.t) (s : string) :
  Operation.is_delete op = true ->
  0 <= Operation.position op <= Py.len s ->
  0 <= Operation.position op + Operation.length op <= Py.len s ->
  spliced op s
  = Py.str_take (Z.to_nat (Operation.position op)) s
    +:+ Py.str_drop (Z.to_nat (Operation.position op + Operation.length op)) s.
Proof.
  intros Hd Hp Hq. unfold spliced, Py.upto, Py.from.
  rewrite (is_delete_not_insert _ Hd).
  rewrite !normalize_in_range by assumption. reflexivity.
Qed.

(** Two in-bounds inserts commute, whatever their positions; at equal
    positions the text of [A] ends up before the text of [B]. *)
Lemma insert_insert_commutes (doc : string) (A B : Operation.t) :
  Operation.is_insert A = true -> Operation.is_insert B = true ->
  in_bounds A doc -> in_bounds B doc ->
  commutes_on doc A B.
Proof.
  destruct A as [ta pa xa la va ia], B as [tb pb xb lb vb ib].
  unfold Operation.is_insert, in_bounds, commutes_on, transform.
  cbn [Operation.op_type Operation.position].
  intros ->%String.eqb_eq ->%String.eqb_eq [Ha _] [Hb _].
  cbn [transform_rec Operation.copy Operation.is_insert Operation.is_delete
       Operation.op_type Operation.position Operation.text String.eqb
       Ascii.eqb Bool.eqb andb].
  assert (Hshift : forall (p : Z) (t : string), 0 <= p ->
            Z.to_nat (p + Py.len t) = (Z.to_nat p + String.length t)%nat)
    by (intros; unfold Py.len; lia).
  destruct splice_algebra as [Hii _].
  destruct (Z.ltb_spec pa pb) as [Hlt | Hge];
    [ | destruct (Z.gtb_spec pa pb) as [Hgt | Hle] ];
    cbn [from_option id]; unfold Operation.copy, Operation.set_position;
    cbn [Operation.op_type Operation.position Operation.text Operation.length
         Operation.base_version];
    rewrite !apply_two by reflexivity;
    rewrite (spliced_insert _ doc) by (try reflexivity; assumption);
    rewrite (spliced_insert _ doc) by (try reflexivity; assumption);
    rewrite !spliced_insert by (try reflexivity; len_solve);
    cbn [Operation.position Operation.text];
    rewrite Hshift by lia.
  - apply Hii. len_solve.
  - symmetry. apply Hii. len_solve.
  - apply Hii. len_solve.
Qed.

(** An in-bounds insert and an in-bounds delete commute when the insert
    position is not strictly inside the deleted range. *)
Lemma insert_outside_delete_commutes (doc : string) (A B : Operation.t) :
  Operation.is_insert A = true -> Operation.is_delete B = true ->
  in_bounds A doc -> in_bounds B doc ->
  0 <= Operation.length B ->
  Operation.position A <= Operation.position B
  \/ Operation.position B + Operation.length B <= Operation.position A ->
  commutes_on doc A B.
Proof.
  destruct A as [ta pa xa la va ia], B as [tb pb xb lb vb ib].
  unfold Operation.is_insert, Operation.is_delete, in_bounds, commutes_on,
    transform.
  cbn [Operation.op_type Operation.position Operation.length].
  intros ->%String.eqb_eq ->%String.eqb_eq [Ha _] [Hb Hb'] Hlb Hout.
  specialize (Hb' eq_refl).
  cbn [transform_rec Operation.copy Operation.is_insert Operation.is_delete
       Operation.op_type Operation.position Operation.text Operation.length
       String.eqb Ascii.eqb Bool.eqb andb].
  destruct splice_algebra as (_ & Hbefore & Hafter).
  destruct (Z.leb_spec pa pb) as [Hle | Hgt];
    cbn [from_option id]; unfold Operation.copy, Operation.set_position;
    cbn [Operation.op_type Operation.position Operation.text Operation.length
         Operation.base_version];
    rewrite !apply_two by reflexivity;
    rewrite (spliced_insert (Operation.init "insert" _ _ _ _ _) doc)
      by (try reflexivity; assumption);
    rewrite (spliced_delete (Operation.init "delete" _ _ _ _ _) doc)
      by (try reflexivity; assumption);
    rewrite (spliced_insert (Operation.init "insert" _ _ _ _ _))
      by (try reflexivity; len_solve);
    rewrite (spliced_delete (Operation.init "delete" _ _ _ _ _))
      by (try reflexivity; len_solve);
    cbn [Operation.position Operation.text Operation.length].
  - replace (Z.to_nat (pb + lb)) with (Z.to_nat pb + Z.to_nat lb)%nat by lia.
    replace (Z.to_nat (pb + Py.len xa))
      with (Z.to_nat pb + String.length xa)%nat by (unfold Py.len; lia).
    replace (Z.to_nat (pb + Py.len xa + lb))
      with (Z.to_nat pb + String.length xa + Z.to_nat lb)%nat
      by (unfold Py.len; lia).
    apply Hbefore; len_solve.
  - replace (Z.to_nat (pb + lb)) with (Z.to_nat pb + Z.to_nat lb)%nat by lia.
    replace (Z.to_nat (pa - Z.min (pa - pb) lb))
      with (Z.to_nat pa - Z.to_nat lb)%nat by lia.
    apply Hafter; len_solve.
Qed.

(** The delete-versus-insert branch inherits this: its pair is the
    insert-versus-delete pair, swapped. *)
Lemma delete_outside_insert_commutes (doc : string) (A B : Operation.t) :
  Operation.is_delete A = true -> Operation.is_insert B = true ->
  in_bounds A doc -> in_bounds B doc ->
  0 <= Operation.length A ->
  Operation.position B <= Operation.position A
  \/ Operation.position A + Operation.length A <= Operation.position B ->
  commutes_on doc A B.
Proof.
  intros Hd Hi Ha Hb Hlen Hout.
  pose proof (insert_outside_delete_commutes doc B A Hi Hd Hb Ha Hlen Hout)
    as Hc.
  destruct (transform_swap A B) as [Hsw _]; [ rewrite Hd, Hi; reflexivity | ].
  change (transform (Operation.copy B) (Operation.copy A))
    with (transform B A) in Hsw.
  unfold commutes_on in *. rewrite Hsw in Hc.
  destruct (transform A B) as [A' B']. cbn [fst snd] in Hc.
  symmetry. exact Hc.
Qed.


(** C1: the two orders of application disagree on three pairs of
    in-bounds operations: an insert strictly inside the other operation's
    deleted range, two disjoint deletes, and two overlapping deletes. *)
Theorem transform_orders_disagree :
  (in_bounds (insert_op 2 "X" 0 None) "abcdef"
   /\ in_bounds (delete_op 1 4 0 None) "abcdef"
   /\ ~ commutes_on "abcdef" (insert_op 2 "X" 0 None) (delete_op 1 4 0 None))
  /\ (in_bounds (delete_op 0 1 0 None) "abcdef"
      /\ in_bounds (delete_op 2 1 0 None) "abcdef"
      /\ ~ commutes_on "abcdef" (delete_op 0 1 0 None) (delete_op 2 1 0 None))
  /\ (in_bounds (delete_op 2 2 0 None) "abcdefgh"
      /\ in_bounds (delete_op 1 3 0 None) "abcdefgh"
      /\ ~ commutes_on "abcdefgh" (delete_op 2 2 0 None) (delete_op 1 3 0 None)).
Proof.
  repeat split; try (vm_compute; congruence);
    intros H; vm_compute in H; discriminate H.
Qed.

(** The texts the two orders produce on the first pair. *)
Lemma insert_inside_delete_texts :
  transform (insert_op 2 "X" 0 None) (delete_op 1 4 0 None)
  = (insert_op 1 "X" 0 None, delete_op 1 4 0 None)
  /\ DocumentModel.text
       (apply_all [delete_op 1 4 0 None; insert_op 1 "X" 0 None]
          (DocumentModel.init "abcdef")) = "aXf"
  /\ DocumentModel.text
       (apply_all [insert_op 2 "X" 0 None; delete_op 1 4 0 None]
          (DocumentModel.init "abcdef")) = "aef".
Proof. repeat split. Qed.

(** ** [transform] on objects: the inputs are left alone *)

Lemma bind_read (l : nat) (h : list Operation.t) (o : Operation.t)
    (k' : Operation.t -> M (list Operation.t) Heap.Fault (nat * nat)) :
  h !! l = Some o -> bind (Heap.read l) k' h = k' o h.
Proof. intros H. unfold bind, Heap.read. rewrite H. reflexivity. Qed.

Lemma bind_new (o : Operation.t) (h : list Operation.t)
    (k' : nat -> M (list Operation.t) Heap.Fault (nat * nat)) :
  bind (Heap.new o) k' h = k' (length h) (h ++ [o]).
Proof. reflexivity. Qed.

Lemma lookup_first_copy (h0 : list Operation.t) (x y : Operation.t) :
  (h0 ++ [x; y]) !! length h0 = Some x.
Proof. apply list_lookup_middle. reflexivity. Qed.

Lemma lookup_second_copy (h0 : list Operation.t) (x y : Operation.t) :
  (h0 ++ [x; y]) !! S (length h0) = Some y.
Proof.
  rewrite lookup_app_r by lia.
  replace (S (length h0) - length h0)%nat with 1%nat by lia. reflexivity.
Qed.

Lemma assign_first_copy (h0 : list Operation.t) (x y v : Operation.t) :
  <[length h0 := v]> (h0 ++ [x; y]) = h0 ++ [v; y].
Proof.
  rewrite insert_app_r_alt by lia.
  replace (length h0 - length h0)%nat with 0%nat by lia. reflexivity.
Qed.

Lemma assign_second_copy (h0 : list Operation.t) (x y v : Operation.t) :
  <[S (length h0) := v]> (h0 ++ [x; y]) = h0 ++ [x; v].
Proof.
  rewrite insert_app_r_alt by lia.
  replace (S (length h0) - length h0)%nat with 1%nat by lia. reflexivity.
Qed.

(** Outside the delete-versus-insert branch the chain does to the two
    copies what [transform] on values computes. *)
Lemma cases_direct (self : nat -> nat -> M (list Operation.t) Heap.Fault (nat * nat))
    (h0 : list Operation.t) (a b : Operation.t) :
  Operation.is_delete a && Operation.is_insert b = false ->
  transform_rec 1 a b = Some (transform a b)
  /\ Heap.cases self (length h0) (S (length h0))
       (h0 ++ [Operation.copy a; Operation.copy b])
     = (h0 ++ [fst (transform a b); snd (transform a b)],
        Returned (length h0, S (length h0))).
Proof.
  destruct a as [ta pa xa la va ia], b as [tb pb xb lb vb ib].
  unfold Heap.cases, transform.
  rewrite (bind_read _ _ _ _ (lookup_first_copy _ _ _)).
  rewrite (bind_read _ _ _ _ (lookup_second_copy _ _ _)).
  cbn [transform_rec Operation.copy Operation.is_insert Operation.is_delete
       Operation.op_type Operation.position Operation.length Operation.text].
  split_kind ta; split_kind tb; cbn; other_kind; cbn; try discriminate;
    intros _; split_ifs; (split; [ reflexivity | ]);
    unfold bind, Heap.assign, ret;
    rewrite ?lookup_first_copy, ?lookup_second_copy,
            ?assign_first_copy, ?assign_second_copy;
    rewrite ?lookup_first_copy, ?lookup_second_copy,
            ?assign_first_copy, ?assign_second_copy;
    reflexivity.
Qed.

(** The first four statements of [transform]: the copies are the two
    newest objects of the store. *)
Lemma transform_alloc (fuel : nat) (h : list Operation.t) (opA opB : nat)
    (a b : Operation.t) :
  h !! opA = Some a ->
  h !! opB = Some b ->
  Heap.transform (S fuel) opA opB h
  = Heap.cases (Heap.transform fuel) (length h) (S (length h))
      (h ++ [Operation.copy a; Operation.copy b]).
Proof.
  intros Ha Hb.
  change (Heap.transform (S fuel) opA opB)
    with (bind (Heap.read opA) (fun a =>
          bind (Heap.new (Operation.copy a)) (fun A =>
          bind (Heap.read opB) (fun b =>
          bind (Heap.new (Operation.copy b)) (fun B =>
          Heap.cases (Heap.transform fuel) A B))))).
  rewrite (bind_read _ _ _ _ Ha), bind_new.
  rewrite (bind_read _ _ _ _ (lookup_app_l_Some _ _ _ _ Hb)), bind_new.
  rewrite length_app, <- app_assoc. cbn [length app].
  replace (length h + 1)%nat with (S (length h)) by lia. reflexivity.
Qed.

(** The delete-versus-insert branch hands the two copies, swapped, to the
    nested call and swaps the references it gets back. *)
Lemma cases_swap (self : nat -> nat -> M (list Operation.t) Heap.Fault (nat * nat))
    (h0 : list Operation.t) (a b : Operation.t) :
  Operation.is_delete a && Operation.is_insert b = true ->
  Heap.cases self (length h0) (S (length h0))
    (h0 ++ [Operation.copy a; Operation.copy b])
  = bind (self (S (length h0)) (length h0))
      (fun r => let '(Bprime, Aprime) := r in ret (Aprime, Bprime))
      (h0 ++ [Operation.copy a; Operation.copy b]).
Proof.
  intros [Hda Hib]%andb_true_iff.
  unfold Heap.cases.
  rewrite (bind_read _ _ _ _ (lookup_first_copy _ _ _)).
  rewrite (bind_read _ _ _ _ (lookup_second_copy _ _ _)).
  change (Operation.is_insert (Operation.copy a))
    with (Operation.is_insert a).
  change (Operation.is_delete (Operation.copy a))
    with (Operation.is_delete a).
  change (Operation.is_insert (Operation.copy b))
    with (Operation.is_insert b).
  rewrite (is_delete_not_insert _ Hda), Hda, Hib. reflexivity.
Qed.

(** C8: [transform] assigns only to the two objects it constructs.  Run
    on a store where [opA] and [opB] refer to objects [a] and [b], it
    returns (given fuel for its one nested call) two references to
    objects allocated during the call, distinct from each other and from
    every object that existed before; the store it leaves extends the old
    one, so [a] and [b], and every other earlier object, keep all their
    fields; and the new objects hold the pair computed by [transform] on
    values, whose kind, text and base version are those of the inputs. *)
Theorem transform_leaves_inputs_unchanged
    (fuel : nat) (h : list Operation.t) (opA opB : nat) (a b : Operation.t) :
  h !! opA = Some a ->
  h !! opB = Some b ->
  exists (created : list Operation.t) (A' B' : nat),
    Heap.transform (S (S fuel)) opA opB h = (h ++ created, Returned (A', B'))
    /\ (h ++ created) !! opA = Some a
    /\ (h ++ created) !! opB = Some b
    /\ (forall (l : nat) (o : Operation.t),
          h !! l = Some o -> (h ++ created) !! l = Some o)
    /\ (length h <= A')%nat /\ (length h <= B')%nat /\ A' <> B'
    /\ (h ++ created) !! A' = Some (fst (transform a b))
    /\ (h ++ created) !! B' = Some (snd (transform a b))
    /\ Operation.op_type (fst (transform a b)) = Operation.op_type a
    /\ Operation.text (fst (transform a b)) = Operation.text a
    /\ Operation.base_version (fst (transform a b)) = Operation.base_version a
    /\ Operation.op_type (snd (transform a b)) = Operation.op_type b
    /\ Operation.text (snd (transform a b)) = Operation.text b
    /\ Operation.base_version (snd (transform a b)) = Operation.base_version b.
Proof.
  intros Ha Hb.
  assert (Hold : forall (ext : list Operation.t) (l : nat) (o : Operation.t),
             h !! l = Some o -> (h ++ ext) !! l = Some o).
  { intros ext l o Hl. apply lookup_app_l_Some, Hl. }
  pose proof (transform_keeps_kind_text_base a b) as Hkeep.
  destruct (transform a b) as [ra rb] eqn:Ht. cbn [fst snd].
  destruct Hkeep as ((Ka & Xa & Va) & (Kb & Xb & Vb)).
  rewrite (transform_alloc _ _ _ _ _ _ Ha Hb).
  destruct (Operation.is_delete a && Operation.is_insert b) eqn:Hswap.
  - (* delete versus insert: one nested call *)
    destruct (transform_swap a b Hswap) as [Hsw Hdirect].
    rewrite Ht in Hsw. cbn [fst snd] in Hsw.
    rewrite (cases_swap _ _ _ _ Hswap). unfold bind.
    rewrite (transform_alloc fuel _ _ _ _ _
               (lookup_second_copy _ _ _) (lookup_first_copy _ _ _)).
    destruct (cases_direct (Heap.transform fuel)
                (h ++ [Operation.copy a; Operation.copy b])
                (Operation.copy b) (Operation.copy a) Hdirect) as [_ Hc].
    rewrite Hc, Hsw. cbn [fst snd ret].
    rewrite <- app_assoc. cbn [app].
    exists [Operation.copy a; Operation.copy b; rb; ra],
           (S (length (h ++ [Operation.copy a; Operation.copy b]))),
           (length (h ++ [Operation.copy a; Operation.copy b])).
    rewrite !length_app. cbn [length].
    repeat split; auto; try lia.
    + rewrite lookup_app_r by lia.
      replace (S (length h + 2) - length h)%nat with 3%nat by lia.
      reflexivity.
    + rewrite lookup_app_r by lia.
      replace (length h + 2 - length h)%nat with 2%nat by lia.
      reflexivity.
  - (* every other branch assigns to the copies directly *)
    destruct (cases_direct (Heap.transform (S fuel)) h a b Hswap) as [_ Hc].
    rewrite Hc, Ht. cbn [fst snd].
    exists [ra; rb], (length h), (S (length h)).
    repeat split; auto; try lia.
    + apply lookup_first_copy.
    + apply lookup_second_copy.
Qed.

Lemma transform_leaves_inputs_unchanged_witness :
  [delete_op 1 4 0 (Some "x1"); insert_op 2 "X" 0 (Some "y1")] !! 0%nat
  = Some (delete_op 1 4 0 (Some "x1"))
  /\ [delete_op 1 4 0 (Some "x1"); insert_op 2 "X" 0 (Some "y1")] !! 1%nat
     = Some (insert_op 2 "X" 0 (Some "y1"))
  /\ exists (created : list Operation.t) (A' B' : nat),
       Heap.transform 2 0 1
         [delete_op 1 4 0 (Some "x1"); insert_op 2 "X" 0 (Some "y1")]
       = ([delete_op 1 4 0 (Some "x1"); insert_op 2 "X" 0 (Some "y1")]
          ++ created, Returned (A', B'))
       /\ (2 <= A')%nat /\ (2 <= B')%nat.
Proof.
  split; [ reflexivity | split; [ reflexivity | ] ].
  destruct (transform_leaves_inputs_unchanged 0
              [delete_op 1 4 0 (Some "x1"); insert_op 2 "X" 0 (Some "y1")]
              0 1 (delete_op 1 4 0 (Some "x1")) (insert_op 2 "X" 0 (Some "y1"))
              eq_refl eq_refl)
    as (created & A' & B' & Hrun & _ & _ & _ & HA & HB & _).
  exists created, A', B'. split; [ exact Hrun | split; [ exact HA | exact HB ] ].
Defined.

(** The same call, evaluated: four objects are created, the two inputs
    stay at references 0 and 1, and the pair returned is (5, 4). *)
Example transform_on_objects_delete_insert :
  Heap.transform 2 0 1
    [delete_op 1 4 0 (Some "x1"); insert_op 2 "X" 0 (Some "y1")]
  = ([delete_op 1 4 0 (Some "x1"); insert_op 2 "X" 0 (Some "y1");
      delete_op 1 4 0 None; insert_op 2 "X" 0 None;
      insert_op 1 "X" 0 None; delete_op 1 4 0 None],
     Returned (5%nat, 4%nat)).
Proof. reflexivity. Qed.

(** * Further properties of the code *)

(** ** [transform] *)

(** X1: [transform] assigns to at most one of its two copies: of the pair
    it returns, either the first is the plain copy of [opA] or the second
    is the plain copy of [opB]. *)
Theorem transform_moves_at_most_one (opA opB : Operation.t) :
  fst (transform opA opB) = Operation.copy opA
  \/ snd (transform opA opB) = Operation.copy opB.
Proof.
  destruct opA as [ta pa xa la va ia], opB as [tb pb xb lb vb ib].
  unfold transform.
  cbn [transform_rec Operation.copy Operation.is_insert Operation.is_delete
       Operation.op_type].
  split_kind ta; split_kind tb; cbn; other_kind; cbn; split_ifs; cbn; auto.
Qed.

(** X2: when either operation is neither an insert nor a delete, no
    branch of [transform] applies and the pair returned is the two plain
    copies. *)
Theorem transform_unknown_kind_copies (opA opB : Operation.t) :
  known_kind opA = false \/ known_kind opB = false ->
  transform opA opB = (Operation.copy opA, Operation.copy opB).
Proof.
  destruct opA as [ta pa xa la va ia], opB as [tb pb xb lb vb ib].
  unfold transform, known_kind.
  cbn [transform_rec Operation.copy Operation.is_insert Operation.is_delete
       Operation.op_type].
  split_kind ta; split_kind tb; cbn; other_kind; cbn;
    intros [H | H]; try discriminate H; reflexivity.
Qed.

Lemma transform_unknown_kind_copies_witness :
  (known_kind (Operation.init "retain" 3 "" 2 0 (Some "r1")) = false
   \/ known_kind (delete_op 1 4 0 None) = false)
  /\ transform (Operation.init "retain" 3 "" 2 0 (Some "r1"))
       (delete_op 1 4 0 None)
     = (Operation.init "retain" 3 "" 2 0 None, delete_op 1 4 0 None).
Proof.
  split; [ left; reflexivity | ].
  apply (transform_unknown_kind_copies
           (Operation.init "retain" 3 "" 2 0 (Some "r1"))
           (delete_op 1 4 0 None)).
  left. reflexivity.
Defined.

(** X3: a delete against an insert is transformed as the insert against
    the delete, with the pair swapped back. *)
Theorem transform_delete_insert_mirrors (opA opB : Operation.t) :
  Operation.is_delete opA = true ->
  Operation.is_insert opB = true ->
  transform opA opB = (snd (transform opB opA), fst (transform opB opA)).
Proof.
  intros Hd Hi.
  destruct (transform_swap opA opB) as [Hsw _]; [ rewrite Hd, Hi; reflexivity | ].
  change (transform (Operation.copy opB) (Operation.copy opA))
    with (transform opB opA) in Hsw.
  rewrite Hsw. cbn [fst snd]. destruct (transform opA opB). reflexivity.
Qed.

Lemma transform_delete_insert_mirrors_witness :
  Operation.is_delete (delete_op 1 4 0 None) = true
  /\ Operation.is_insert (insert_op 7 "X" 0 None) = true
  /\ transform (delete_op 1 4 0 None) (insert_op 7 "X" 0 None)
     = (delete_op 1 4 0 None, insert_op 3 "X" 0 None).
Proof.
  split; [ reflexivity | split; [ reflexivity | ] ].
  rewrite (transform_delete_insert_mirrors (delete_op 1 4 0 None)
             (insert_op 7 "X" 0 None) eq_refl eq_refl).
  reflexivity.
Defined.

(** [transform] never produces a negative position or length from
    operations that have none. *)
Lemma transform_well_formed (opA opB : Operation.t) :
  well_formed opA -> well_formed opB ->
  well_formed (fst (transform opA opB))
  /\ well_formed (snd (transform opA opB)).
Proof.
  destruct opA as [ta pa xa la va ia], opB as [tb pb xb lb vb ib].
  unfold transform, well_formed.
  cbn [transform_rec Operation.copy Operation.is_insert Operation.is_delete
       Operation.op_type Operation.position Operation.length].
  intros [Hpa Hla] [Hpb Hlb].
  split_kind ta; split_kind tb; cbn; other_kind; cbn; split_ifs;
    cbn; unfold Py.len; repeat split; compare_to_prop; lia.
Qed.

(** One rebasing step keeps an operation inside the text it will be
    applied to, unless both operations are deletes: if [A] and [B] lie
    within [doc], then [A] transformed against [B] lies within the text
    [B] leaves, and a delete keeps its length. *)
Lemma rebase_step_in_bounds (doc : string) (A B : Operation.t) :
  known_kind A = true -> known_kind B = true ->
  Operation.is_delete A && Operation.is_delete B = false ->
  in_bounds A doc -> in_bounds B doc ->
  (Operation.is_delete A = true -> 0 <= Operation.length A) ->
  (Operation.is_delete B = true -> 0 <= Operation.length B) ->
  in_bounds (fst (transform A B)) (spliced B doc)
  /\ (Operation.is_delete A = true ->
      0 <= Operation.length (fst (transform A B))).
Proof.
  intros HkA HkB Hdd HA HB HlA HlB.
  pose proof (spliced_length B doc HB) as [Hins Hdel].
  set (doc' := spliced B doc) in *. clearbody doc'.
  destruct A as [ta pa xa la va ia], B as [tb pb xb lb vb ib].
  unfold known_kind, in_bounds, transform, Py.len in *.
  cbn [transform_rec Operation.copy Operation.is_insert Operation.is_delete
       Operation.op_type Operation.position Operation.length Operation.text]
    in *.
  split_kind ta; split_kind tb;
    cbn in HkA, HkB, Hdd, Hins, Hdel, HlA, HlB;
    repeat match goal with
           | H : (?t =? ?s)%string = false |- _ =>
             rewrite H in HkA || rewrite H in HkB
           end;
    try discriminate; cbn.
  - (* insert against insert *)
    specialize (Hins eq_refl). destruct HA as [HA _], HB as [HB _].
    split_ifs; cbn; compare_to_prop; unfold Py.len in *;
      (split; [ split; [ lia | discriminate ] | discriminate ]).
  - (* insert against delete *)
    specialize (Hdel eq_refl (HlB eq_refl)).
    destruct HA as [HA _], HB as [HB HB']. specialize (HB' eq_refl).
    specialize (HlB eq_refl).
    split_ifs; cbn; compare_to_prop; unfold Py.len in *;
      (split; [ split; [ lia | discriminate ] | discriminate ]).
  - (* delete against insert *)
    specialize (Hins eq_refl). specialize (HlA eq_refl).
    destruct HA as [HA HA'], HB as [HB _]. specialize (HA' eq_refl).
    split_ifs; cbn; compare_to_prop; unfold Py.len in *;
      (split; [ split; [ lia | intros _; lia ] | intros _; lia ]).
Qed.

(** X4: rebasing keeps an operation inside the document, as long as no
    delete meets a delete.  Let [unseen_ops] be operations that were
    applied one after the other from the text [op] was written against,
    and let [op] lie within that text.  If [op] is an insert, or all of
    [unseen_ops] are, then [op] rebased against them lies within the text
    they leave: the server never hands [apply_operation] an out-of-range
    position on this path.  In particular an insert whose position falls
    strictly inside a deleted range lands on an offset of the shortened
    text. *)
Theorem rebased_operation_stays_in_bounds
    (unseen_ops : list Operation.t) (op : Operation.t) (d : DocumentModel.t) :
  known_kind op = true ->
  in_bounds op (DocumentModel.text d) ->
  (Operation.is_delete op = true -> 0 <= Operation.length op) ->
  applicable unseen_ops (DocumentModel.text d) ->
  Operation.is_insert op = true
  \/ Forall (fun old_op => Operation.is_insert old_op = true) unseen_ops ->
  in_bounds (OTServer.rebase op unseen_ops)
    (DocumentModel.text (apply_all unseen_ops d)).
Proof.
  revert op d.
  induction unseen_ops as [ | old_op rest IH ]; intros op d Hk Hb Hl Happ Hmix.
  - exact Hb.
  - destruct Happ as (Hkold & Hbold & Hlold & Hrest).
    cbn [OTServer.rebase apply_all].
    rewrite (apply_operation_known _ _ Hkold). cbn [fst].
    assert (Hdd : Operation.is_delete op && Operation.is_delete old_op = false).
    { destruct Hmix as [Hi | Hall].
      - destruct (Operation.is_delete op) eqn:Hd; [ | reflexivity ].
        rewrite (is_delete_not_insert _ Hd) in Hi. discriminate Hi.
      - apply Forall_cons in Hall as [Hi _].
        destruct (Operation.is_delete old_op) eqn:Hd;
          [ | apply andb_false_r ].
        rewrite (is_delete_not_insert _ Hd) in Hi. discriminate Hi. }
    destruct (rebase_step_in_bounds (DocumentModel.text d) op old_op
                Hk Hkold Hdd Hb Hbold Hl Hlold) as [Hb' Hl'].
    pose proof (transform_keeps_kind_text_base op old_op) as Hkeep.
    destruct (transform op old_op) as [A' B'] eqn:Ht. cbn [fst] in *.
    destruct Hkeep as ((Hty & _ & _) & _).
    apply IH.
    + rewrite <- Hk. apply known_kind_copy_free, Hty.
    + exact Hb'.
    + intros Hd. apply Hl'.
      unfold Operation.is_delete in *. rewrite <- Hty. exact Hd.
    + exact Hrest.
    + destruct Hmix as [Hi | Hall].
      * left. unfold Operation.is_insert in *. rewrite Hty. exact Hi.
      * right. apply Forall_cons in Hall as [_ Hall]. exact Hall.
Qed.

Lemma rebased_operation_stays_in_bounds_witness :
  known_kind (insert_op 3 "X" 0 None) = true
  /\ in_bounds (insert_op 3 "X" 0 None) "abcdef"
  /\ applicable [delete_op 1 4 0 None; insert_op 0 "yz" 0 None] "abcdef"
  /\ in_bounds
       (OTServer.rebase (insert_op 3 "X" 0 None)
          [delete_op 1 4 0 None; insert_op 0 "yz" 0 None])
       (DocumentModel.text
          (apply_all [delete_op 1 4 0 None; insert_op 0 "yz" 0 None]
             (DocumentModel.init "abcdef"))).
Proof.
  assert (Hb : in_bounds (insert_op 3 "X" 0 None) "abcdef")
    by (split; [ vm_compute; split; discriminate | discriminate ]).
  assert (Happ : applicable [delete_op 1 4 0 None; insert_op 0 "yz" 0 None]
                   "abcdef").
  { cbn [applicable].
    repeat split; try reflexivity; try discriminate;
      try (intros _); vm_compute; try split; discriminate. }
  split; [ reflexivity | split; [ exact Hb | split; [ exact Happ | ] ] ].
  apply (rebased_operation_stays_in_bounds
           [delete_op 1 4 0 None; insert_op 0 "yz" 0 None]
           (insert_op 3 "X" 0 None) (DocumentModel.init "abcdef"));
    [ reflexivity | exact Hb | discriminate | exact Happ | left; reflexivity ].
Defined.

(** ** [DocumentModel.apply_operation] *)

Lemma normalize_le (n : nat) (i : Z) : (Py.normalize n i <= n)%nat.
Proof. unfold Py.normalize. destruct (Z.ltb_spec i 0); lia. Qed.

Lemma str_drop_drop (n m : nat) (s : string) :
  Py.str_drop n (Py.str_drop m s) = Py.str_drop (m + n) s.
Proof.
  revert s. induction m as [ | m IH ]; intros s.
  - destruct s; reflexivity.
  - destruct s as [ | c s ]; [ destruct n; reflexivity | ].
    cbn [Py.str_drop Nat.add]. apply IH.
Qed.

(** X5: an insert never loses or reorders text, whatever its position:
    the old text is cut in two somewhere and the inserted text is placed
    between the halves, so the text grows by exactly [len(op.text)]. *)
Theorem insert_keeps_the_old_text (d : DocumentModel.t) (op : Operation.t) :
  Operation.is_insert op = true ->
  exists before after : string,
    DocumentModel.text d = before +:+ after
    /\ DocumentModel.apply_operation op d
       = (DocumentModel.mk (before +:+ Operation.text op +:+ after)
            (DocumentModel.version d + 1), Returned tt)
    /\ Py.len (before +:+ Operation.text op +:+ after)
       = Py.len (DocumentModel.text d) + Py.len (Operation.text op).
Proof.
  intros Hi.
  exists (Py.upto (DocumentModel.text d) (Operation.position op)),
         (Py.from (DocumentModel.text d) (Operation.position op)).
  assert (Hcut : DocumentModel.text d
                 = Py.upto (DocumentModel.text d) (Operation.position op)
                   +:+ Py.from (DocumentModel.text d) (Operation.position op)).
  { unfold Py.upto, Py.from. symmetry. apply str_take_drop. }
  split; [ exact Hcut | split ].
  - rewrite apply_operation_known by (unfold known_kind; rewrite Hi; reflexivity).
    unfold spliced. rewrite Hi. reflexivity.
  - rewrite Hcut at 3. unfold Py.len. rewrite !str_app_length. lia.
Qed.

Lemma insert_keeps_the_old_text_witness :
  Operation.is_insert (insert_op (-2) "XY" 0 None) = true
  /\ exists before after : string,
       "abcdef" = before +:+ after
       /\ DocumentModel.apply_operation (insert_op (-2) "XY" 0 None)
            (DocumentModel.init "abcdef")
          = (DocumentModel.mk (before +:+ "XY" +:+ after) 1, Returned tt).
Proof.
  split; [ reflexivity | ].
  destruct (insert_keeps_the_old_text (DocumentModel.init "abcdef")
              (insert_op (-2) "XY" 0 None) eq_refl)
    as (before & after & Hcut & Happ & _).
  exists before, after. split; [ exact Hcut | exact Happ ].
Defined.

(** X6: a delete with a non-negative position and length removes one
    contiguous range and nothing else, and only the characters of
    [position .. position + length] that exist: past the end of the text
    the range is clipped, so an out-of-range delete removes fewer
    characters than asked, possibly none. *)
Theorem delete_removes_the_existing_range
    (d : DocumentModel.t) (op : Operation.t) :
  Operation.is_delete op = true ->
  0 <= Operation.position op ->
  0 <= Operation.length op ->
  exists before removed after : string,
    DocumentModel.text d = before +:+ removed +:+ after
    /\ DocumentModel.apply_operation op d
       = (DocumentModel.mk (before +:+ after) (DocumentModel.version d + 1),
          Returned tt)
    /\ Py.len before
       = Z.min (Operation.position op) (Py.len (DocumentModel.text d))
    /\ Py.len removed
       = Z.min (Operation.position op + Operation.length op)
           (Py.len (DocumentModel.text d))
         - Z.min (Operation.position op) (Py.len (DocumentModel.text d)).
Proof.
  intros Hd Hp Hl.
  set (t := DocumentModel.text d).
  set (n1 := Py.normalize (String.length t) (Operation.position op)).
  set (n2 := Py.normalize (String.length t)
               (Operation.position op + Operation.length op)).
  assert (Hn1 : Z.of_nat n1 = Z.min (Operation.position op) (Py.len t)).
  { unfold n1, Py.normalize, Py.len.
    destruct (Z.ltb_spec (Operation.position op) 0); lia. }
  assert (Hn2 : Z.of_nat n2
                = Z.min (Operation.position op + Operation.length op)
                    (Py.len t)).
  { unfold n2, Py.normalize, Py.len.
    destruct (Z.ltb_spec (Operation.position op + Operation.length op) 0);
      lia. }
  assert (Hle : (n1 <= n2 <= String.length t)%nat).
  { split; [ lia | apply normalize_le ]. }
  exists (Py.str_take n1 t), (Py.str_take (n2 - n1) (Py.str_drop n1 t)),
         (Py.str_drop n2 t).
  split; [ | split; [ | split ] ].
  - replace (Py.str_drop n2 t)
      with (Py.str_drop (n2 - n1) (Py.str_drop n1 t))
      by (rewrite str_drop_drop; f_equal; lia).
    rewrite !str_take_drop. reflexivity.
  - rewrite apply_operation_known
      by (unfold known_kind; rewrite Hd, orb_true_r; reflexivity).
    unfold spliced. rewrite (is_delete_not_insert _ Hd). reflexivity.
  - rewrite <- Hn1. unfold Py.len. rewrite str_take_length. lia.
  - rewrite <- Hn1, <- Hn2. unfold Py.len.
    rewrite str_take_length, str_drop_length. lia.
Qed.

Lemma delete_removes_the_existing_range_witness :
  Operation.is_delete (delete_op 4 50 0 None) = true
  /\ 0 <= Operation.position (delete_op 4 50 0 None)
  /\ 0 <= Operation.length (delete_op 4 50 0 None)
  /\ exists before removed after : string,
       "abcdef" = before +:+ removed +:+ after
       /\ DocumentModel.apply_operation (delete_op 4 50 0 None)
            (DocumentModel.init "abcdef")
          = (DocumentModel.mk (before +:+ after) 1, Returned tt)
       /\ Py.len removed = 2.
Proof.
  split; [ reflexivity | split; [ cbn; lia | split; [ cbn; lia | ] ] ].
  destruct (delete_removes_the_existing_range (DocumentModel.init "abcdef")
              (delete_op 4 50 0 None) eq_refl)
    as (before & removed & after & Hcut & Happ & _ & Hlen);
    [ cbn; lia | cbn; lia | ].
  exists before, removed, after.
  split; [ exact Hcut | split; [ exact Happ | ] ].
  rewrite Hlen. reflexivity.
Defined.

Lemma str_take_app_exact (x z : string) :
  Py.str_take (String.length x) (x +:+ z) = x.
Proof.
  rewrite str_take_app, Nat.sub_diag, str_take_all by lia.
  rewrite (str_take_none 0) by reflexivity. apply str_app_empty_r.
Qed.

Lemma str_drop_app_exact (x z : string) :
  Py.str_drop (String.length x) (x +:+ z) = z.
Proof.
  rewrite str_drop_app, Nat.sub_diag, str_drop_all by lia.
  rewrite (str_drop_none 0) by reflexivity. reflexivity.
Qed.

(** X7: deleting what was just inserted restores the text.  After an
    in-bounds insert of [t] at [p], a delete of [len(t)] characters at
    [p] leaves the text the document started with, two versions later. *)
Theorem insert_then_delete_restores_text
    (d : DocumentModel.t) (ins del : Operation.t) :
  Operation.is_insert ins = true ->
  Operation.is_delete del = true ->
  0 <= Operation.position ins <= Py.len (DocumentModel.text d) ->
  Operation.position del = Operation.position ins ->
  Operation.length del = Py.len (Operation.text ins) ->
  apply_all [ins; del] d
  = DocumentModel.mk (DocumentModel.text d) (DocumentModel.version d + 2).
Proof.
  intros Hi Hd Hp Hpos Hlen.
  assert (Hki : known_kind ins = true)
    by (unfold known_kind; rewrite Hi; reflexivity).
  assert (Hkd : known_kind del = true)
    by (unfold known_kind; rewrite Hd, orb_true_r; reflexivity).
  cbn [apply_all]. rewrite (apply_operation_known _ _ Hki). cbn [fst].
  rewrite (apply_operation_known _ _ Hkd).
  cbn [fst DocumentModel.text DocumentModel.version].
  replace (DocumentModel.version d + 1 + 1)
    with (DocumentModel.version d + 2) by lia.
  f_equal.
  rewrite (spliced_insert ins) by assumption.
  destruct (str_cut2 (Z.to_nat (Operation.position ins)) (DocumentModel.text d))
    as (x & z & Hcut & Hx); [ unfold Py.len in Hp; lia | ].
  rewrite Hcut in *. rewrite <- Hx.
  rewrite str_take_app_exact, str_drop_app_exact.
  rewrite spliced_delete; rewrite ?Hpos, ?Hlen; try assumption.
  - replace (Z.to_nat (Operation.position ins)) with (String.length x).
    replace (Z.to_nat (Operation.position ins + Py.len (Operation.text ins)))
      with (String.length (x +:+ Operation.text ins))
      by (rewrite str_app_length; unfold Py.len; lia).
    rewrite str_take_app_exact, <- str_app_assoc, str_drop_app_exact.
    reflexivity.
  - unfold Py.len in *. rewrite !str_app_length in *. lia.
  - unfold Py.len in *. rewrite !str_app_length in *. lia.
Qed.

Lemma insert_then_delete_restores_text_witness :
  0 <= Operation.position (insert_op 5 "abc" 0 None) <= Py.len "Hello OT!"
  /\ apply_all [insert_op 5 "abc" 0 None; delete_op 5 3 1 None]
       (DocumentModel.init "Hello OT!")
     = DocumentModel.mk "Hello OT!" 2.
Proof.
  assert (Hp : 0 <= Operation.position (insert_op 5 "abc" 0 None)
               <= Py.len "Hello OT!") by (vm_compute; split; discriminate).
  split; [ exact Hp | ].
  exact (insert_then_delete_restores_text (DocumentModel.init "Hello OT!")
           (insert_op 5 "abc" 0 None) (delete_op 5 3 1 None)
           eq_refl eq_refl Hp eq_refl eq_refl).
Defined.

(** X8: an insert whose position is out of range is clamped, not
    rejected: at or past the end of the text it appends, and at or before
    minus the length of the text it prepends. *)
Theorem insert_out_of_range_is_clamped
    (d : DocumentModel.t) (op : Operation.t) :
  Operation.is_insert op = true ->
  (Py.len (DocumentModel.text d) <= Operation.position op ->
   DocumentModel.apply_operation op d
   = (DocumentModel.mk (DocumentModel.text d +:+ Operation.text op)
        (DocumentModel.version d + 1), Returned tt))
  /\ (Operation.position op <= - Py.len (DocumentModel.text d) ->
      DocumentModel.apply_operation op d
      = (DocumentModel.mk (Operation.text op +:+ DocumentModel.text d)
           (DocumentModel.version d + 1), Returned tt)).
Proof.
  intros Hi.
  assert (Hk : known_kind op = true)
    by (unfold known_kind; rewrite Hi; reflexivity).
  rewrite (apply_operation_known _ _ Hk).
  unfold spliced, Py.upto, Py.from, Py.len. rewrite Hi.
  split; intros Hpos.
  - rewrite normalize_beyond by exact Hpos.
    rewrite str_take_all, str_drop_all by lia.
    rewrite str_app_empty_r. reflexivity.
  - assert (Hz : Py.normalize (String.length (DocumentModel.text d))
                   (Operation.position op) = O).
    { unfold Py.normalize.
      destruct (Z.ltb_spec (Operation.position op) 0); lia. }
    rewrite Hz. rewrite (str_take_none 0), (str_drop_none 0) by reflexivity.
    reflexivity.
Qed.

Lemma insert_out_of_range_is_clamped_witness :
  Operation.is_insert (insert_op 100 "!" 0 None) = true
  /\ Py.len "abc" <= Operation.position (insert_op 100 "!" 0 None)
  /\ DocumentModel.apply_operation (insert_op 100 "!" 0 None)
       (DocumentModel.init "abc")
     = (DocumentModel.mk "abc!" 1, Returned tt).
Proof.
  assert (Hp : Py.len "abc" <= Operation.position (insert_op 100 "!" 0 None))
    by (vm_compute; discriminate).
  split; [ reflexivity | split; [ exact Hp | ] ].
  exact (proj1 (insert_out_of_range_is_clamped (DocumentModel.init "abc")
                  (insert_op 100 "!" 0 None) eq_refl) Hp).
Defined.

(** ** [OTServer.handle_incoming_operation] *)

Lemma apply_all_app (l1 l2 : list Operation.t) (d : DocumentModel.t) :
  apply_all (l1 ++ l2) d = apply_all l2 (apply_all l1 d).
Proof.
  revert d. induction l1 as [ | op l1 IH ]; intros d; [ reflexivity | ].
  cbn [app apply_all]. apply IH.
Qed.

Lemma rebase_signature (unseen_ops : list Operation.t) (op : Operation.t) :
  signature (OTServer.rebase op unseen_ops) = signature op.
Proof.
  revert op. induction unseen_ops as [ | old_op rest IH ]; intros op.
  - reflexivity.
  - cbn [OTServer.rebase]. rewrite IH.
    pose proof (transform_keeps_kind_text_base op old_op) as H.
    destruct (transform op old_op) as [A' B']. cbn [fst].
    destruct H as ((Hk & Ht & Hv) & _).
    unfold signature. rewrite Hk, Ht, Hv. reflexivity.
Qed.

Lemma rebase_known_kind (unseen_ops : list Operation.t) (op : Operation.t) :
  known_kind (OTServer.rebase op unseen_ops) = known_kind op.
Proof. apply known_kind_copy_free, rebase_keeps_kind. Qed.

Lemma rebase_well_formed (unseen_ops : list Operation.t) (op : Operation.t) :
  Forall well_formed unseen_ops -> well_formed op ->
  well_formed (OTServer.rebase op unseen_ops).
Proof.
  intros Hall. revert op.
  induction Hall as [ | old_op rest Hold Hrest IH ]; intros op Hop.
  - exact Hop.
  - cbn [OTServer.rebase]. apply IH.
    apply (transform_well_formed op old_op Hop Hold).
Qed.

(** X9: a call is accepted exactly when the operation is an insert or a
    delete; position, length and base version are never examined.  An
    accepted call appends one operation to the history, of the kind, text
    and base version submitted, applies that same operation to the text,
    raises the version by one and emits a payload describing that same
    operation with the new version.  A rejected call raises [ValueError]
    and leaves the server as it was. *)
Theorem handle_accepts_exactly_known_kinds
    (op : Operation.t) (s : OTServer.t) :
  let (s', r) := OTServer.handle_incoming_operation op s in
  match r with
  | Returned p =>
    known_kind op = true
    /\ exists op' : Operation.t,
         OTServer.history s' = OTServer.history s ++ [op']
         /\ signature op' = signature op
         /\ OTServer.document s'
            = fst (DocumentModel.apply_operation op' (OTServer.document s))
         /\ DocumentModel.version (OTServer.document s')
            = DocumentModel.version (OTServer.document s) + 1
         /\ p = payload_of op' (DocumentModel.version (OTServer.document s'))
  | Raised e =>
    known_kind op = false
    /\ e = ValueError "Unknown operation type."
    /\ s' = s
  end.
Proof.
  destruct (known_kind op) eqn:Hk.
  - rewrite (handle_known _ _ Hk).
    split; [ reflexivity | ].
    set (op' := OTServer.rebase op
                  (Py.list_from (OTServer.history s)
                     (Operation.base_version op))).
    exists op'. cbn [OTServer.history OTServer.document DocumentModel.version].
    assert (Hk' : known_kind op' = true)
      by (unfold op'; rewrite rebase_known_kind; exact Hk).
    rewrite (apply_operation_known _ _ Hk').
    repeat split. apply rebase_signature.
  - rewrite (handle_unknown _ _ Hk). repeat split.
Qed.

Lemma run_replays (ops : list Operation.t) (d0 : DocumentModel.t)
    (s : OTServer.t) :
  apply_all (OTServer.history s) d0 = OTServer.document s ->
  apply_all (OTServer.history (run ops s)) d0 = OTServer.document (run ops s).
Proof.
  revert s. induction ops as [ | op rest IH ]; intros s Hs.
  - exact Hs.
  - cbn [run]. apply IH.
    destruct (known_kind op) eqn:Hk.
    + rewrite (handle_known _ _ Hk).
      cbn [fst OTServer.history OTServer.document].
      rewrite apply_all_app, Hs. cbn [apply_all].
      rewrite apply_operation_known
        by (rewrite rebase_known_kind; exact Hk).
      reflexivity.
    + rewrite (handle_unknown _ _ Hk). exact Hs.
Qed.

(** X10: replaying the history reproduces the document.  Start a server
    on any initial text with an empty history and make any sequence of
    calls: applying the operations of the history, in order, to a fresh
    document holding the initial text gives the server's current text and
    version. *)
Theorem history_replays_to_document
    (initial_text : string) (ops : list Operation.t) :
  apply_all
    (OTServer.history
       (run ops (OTServer.mk (DocumentModel.init initial_text) [])))
    (DocumentModel.init initial_text)
  = OTServer.document
      (run ops (OTServer.mk (DocumentModel.init initial_text) [])).
Proof. apply run_replays. reflexivity. Qed.

(** X11: the history is append-only and records exactly the accepted
    submissions.  Whatever the starting state and the calls made, the
    earlier history is kept as a prefix, one entry is added per accepted
    call, and the added entries have, in order, the kind, text and base
    version of the submitted inserts and deletes (operations of any other
    kind leave no entry). *)
Theorem history_appends_accepted_submissions
    (ops : list Operation.t) (s : OTServer.t) :
  exists committed : list Operation.t,
    OTServer.history (run ops s) = OTServer.history s ++ committed
    /\ length committed = applied ops s
    /\ map signature committed = map signature (List.filter known_kind ops).
Proof.
  revert s. induction ops as [ | op rest IH ]; intros s.
  - exists []. cbn. rewrite app_nil_r. repeat split.
  - cbn [run applied List.filter].
    destruct (known_kind op) eqn:Hk.
    + rewrite (handle_known _ _ Hk). cbn [fst].
      set (op' := OTServer.rebase op _).
      set (s1 := OTServer.mk _ _).
      destruct (IH s1) as (committed & Hh & Hn & Hsig).
      exists (op' :: committed).
      split; [ | split ].
      * rewrite Hh. unfold s1. cbn [OTServer.history].
        rewrite <- app_assoc. reflexivity.
      * cbn [length]. rewrite Hn. reflexivity.
      * cbn [map]. rewrite Hsig. f_equal. apply rebase_signature.
    + rewrite (handle_unknown _ _ Hk). cbn [fst]. apply IH.
Qed.

(** X12: an operation submitted against the current version is not
    transformed: it is applied, appended to the history and emitted
    exactly as submitted, operation id included. *)
Theorem current_operation_is_applied_as_submitted
    (s : OTServer.t) (op : Operation.t) :
  consistent s ->
  Operation.base_version op = DocumentModel.version (OTServer.document s) ->
  known_kind op = true ->
  OTServer.handle_incoming_operation op s
  = (OTServer.mk
       (DocumentModel.mk
          (spliced op (DocumentModel.text (OTServer.document s)))
          (DocumentModel.version (OTServer.document s) + 1))
       (OTServer.history s ++ [op]),
     Returned
       (payload_of op (DocumentModel.version (OTServer.document s) + 1))).
Proof.
  unfold consistent. intros Hs Hv Hk.
  rewrite (handle_known _ _ Hk).
  rewrite list_from_beyond by lia. reflexivity.
Qed.

Lemma current_operation_is_applied_as_submitted_witness :
  consistent (OTServer.mk (DocumentModel.mk "Helloa OT!" 1)
                [insert_op 5 "a" 0 (Some "x1")])
  /\ OTServer.handle_incoming_operation (delete_op 0 5 1 (Some "z9"))
       (OTServer.mk (DocumentModel.mk "Helloa OT!" 1)
          [insert_op 5 "a" 0 (Some "x1")])
     = (OTServer.mk (DocumentModel.mk "a OT!" 2)
          [insert_op 5 "a" 0 (Some "x1"); delete_op 0 5 1 (Some "z9")],
        Returned (payload_of (delete_op 0 5 1 (Some "z9")) 2)).
Proof.
  split; [ reflexivity | ].
  rewrite (current_operation_is_applied_as_submitted
             (OTServer.mk (DocumentModel.mk "Helloa OT!" 1)
                [insert_op 5 "a" 0 (Some "x1")])
             (delete_op 0 5 1 (Some "z9")) eq_refl eq_refl eq_refl).
  reflexivity.
Defined.

(** X13: the emitted operation id.  For an accepted operation the payload
    carries the submitted id when no history entry is unseen, and no id
    at all as soon as one [transform] step has run. *)
Theorem payload_op_id_survives_only_without_rebase
    (s : OTServer.t) (op : Operation.t) :
  known_kind op = true ->
  exists (s' : OTServer.t) (p : OTServer.update_payload),
    OTServer.handle_incoming_operation op s = (s', Returned p)
    /\ OTServer.opId p
       = match Py.list_from (OTServer.history s) (Operation.base_version op)
         with
         | [] => Operation.op_id op
         | _ :: _ => None
         end.
Proof.
  intros Hk. rewrite (handle_known _ _ Hk).
  eexists _, _. split; [ reflexivity | ].
  cbn [payload_of OTServer.opId].
  destruct (Py.list_from (OTServer.history s) (Operation.base_version op))
    as [ | old_op rest ] eqn:Hunseen.
  - reflexivity.
  - apply rebase_drops_op_id. discriminate.
Qed.

Lemma payload_op_id_survives_only_without_rebase_witness :
  known_kind (insert_op 0 "b" 0 (Some "y1")) = true
  /\ exists (s' : OTServer.t) (p : OTServer.update_payload),
       OTServer.handle_incoming_operation (insert_op 0 "b" 0 (Some "y1"))
         (OTServer.mk (DocumentModel.mk "Helloa OT!" 1)
            [insert_op 5 "a" 0 (Some "x1")])
       = (s', Returned p)
       /\ OTServer.opId p = None.
Proof.
  split; [ reflexivity | ].
  destruct (payload_op_id_survives_only_without_rebase
              (OTServer.mk (DocumentModel.mk "Helloa OT!" 1)
                 [insert_op 5 "a" 0 (Some "x1")])
              (insert_op 0 "b" 0 (Some "y1")) eq_refl)
    as (s' & p & Hrun & Hid).
  exists s', p. split; [ exact Hrun | exact Hid ].
Defined.

(** X14: negative positions and lengths never enter the history on their
    own.  If every submitted operation has a non-negative position and
    length, so has every operation of the history, rebased or not. *)
Theorem history_stays_well_formed (ops : list Operation.t) :
  Forall well_formed ops ->
  Forall well_formed (OTServer.history (run ops OTServer.init)).
Proof.
  assert (Hgen : forall s : OTServer.t,
             Forall well_formed (OTServer.history s) ->
             Forall well_formed ops ->
             Forall well_formed (OTServer.history (run ops s))).
  { induction ops as [ | op rest IH ]; intros s Hs Hops.
    - exact Hs.
    - apply Forall_cons in Hops as [Hop Hrest].
      cbn [run]. apply IH; [ | exact Hrest ].
      destruct (known_kind op) eqn:Hk.
      + rewrite (handle_known _ _ Hk). cbn [fst OTServer.history].
        apply Forall_app. split; [ exact Hs | ].
        apply Forall_singleton, rebase_well_formed; [ | exact Hop ].
        unfold Py.list_from. apply Forall_drop, Hs.
      + rewrite (handle_unknown _ _ Hk). exact Hs. }
  intros Hops. apply Hgen; [ apply Forall_nil_2 | exact Hops ].
Qed.

Lemma history_stays_well_formed_witness :
  Forall well_formed [delete_op 1 3 0 None; delete_op 2 2 0 None]
  /\ Forall well_formed
       (OTServer.history
          (run [delete_op 1 3 0 None; delete_op 2 2 0 None] OTServer.init)).
Proof.
  assert (H : Forall well_formed
                [delete_op 1 3 0 None; delete_op 2 2 0 None]).
  { repeat constructor; cbn; lia. }
  split; [ exact H | ].
  exact (history_stays_well_formed _ H).
Defined.

(** ** [main.py] *)

(** X15: which messages [client_op] turns into an operation.  The keys
    [op_type], [position] and [base_version] are required: when one is
    absent the handler raises [KeyError] for the first absent one, in
    that order, and builds no operation.  The keys [text], [length] and
    [opId] are optional and default to the empty string, zero and
    [None]. *)
Theorem client_op_requires_three_keys (d : Main.data) :
  match Main.client_op d with
  | Returned op =>
    Main.d_op_type d = Some (Operation.op_type op)
    /\ Main.d_position d = Some (Operation.position op)
    /\ Main.d_base_version d = Some (Operation.base_version op)
    /\ Operation.text op = default "" (Main.d_text d)
    /\ Operation.length op = default 0 (Main.d_length d)
    /\ Operation.op_id op = Main.d_opId d
  | Raised (Main.Key key) =>
    (key = "op_type" /\ Main.d_op_type d = None)
    \/ (key = "position" /\ is_Some (Main.d_op_type d)
        /\ Main.d_position d = None)
    \/ (key = "base_version" /\ is_Some (Main.d_op_type d)
        /\ is_Some (Main.d_position d) /\ Main.d_base_version d = None)
  end.
Proof.
  destruct d as [[ty | ] [pos | ] tx ln [bv | ] id]; cbn; eauto 10.
Qed.



Lemma run_history_length (ops : list Operation.t) (s : OTServer.t) :
  length (OTServer.history (run ops s))
  = (length (OTServer.history s) + applied ops s)%nat.
Proof.
  revert s. induction ops as [ | op rest IH ]; intros s.
  - cbn. lia.
  - cbn [run applied].
    pose proof (handle_step op s) as Hstep.
    destruct (OTServer.handle_incoming_operation op s) as [s' [p | e]];
      cbn [fst]; rewrite IH.
    + destruct Hstep as (_ & Hl & _). lia.
    + subst s'. reflexivity.
Qed.

(** X17: what a connecting client is sent.  After any sequence of calls
    on the initial server, [connect] emits the text obtained by replaying
    the history on ["Hello OT!"], with the number of accepted calls as
    the version. *)
Theorem connect_sends_the_replayed_state (ops : list Operation.t) :
  Main.connect (run ops OTServer.init)
  = (DocumentModel.text
       (apply_all (OTServer.history (run ops OTServer.init))
          (DocumentModel.init "Hello OT!")),
     Z.of_nat (applied ops OTServer.init)).
Proof.
  unfold Main.connect, OTServer.get_document_state.
  rewrite (run_replays ops (DocumentModel.init "Hello OT!") OTServer.init)
    by reflexivity.
  destruct (run_consistent ops OTServer.init init_consistent) as [Hc _].
  unfold consistent in Hc. rewrite Hc, run_history_length. reflexivity.
Qed.

(** ** Where concurrent operations converge *)

(** X18: two concurrent in-bounds inserts converge.  Applying [B] and
    then the transformed [A] gives the same text as applying [A] and then
    the transformed [B]; when both insert at the same position, the text
    of the first argument comes first in the result. *)
Theorem concurrent_inserts_converge (doc : string) (A B : Operation.t) :
  Operation.is_insert A = true -> Operation.is_insert B = true ->
  in_bounds A doc -> in_bounds B doc ->
  commutes_on doc A B
  /\ (Operation.position A = Operation.position B ->
      DocumentModel.text
        (apply_all [A; snd (transform A B)] (DocumentModel.init doc))
      = Py.str_take (Z.to_nat (Operation.position A)) doc
        +:+ Operation.text A +:+ Operation.text B
        +:+ Py.str_drop (Z.to_nat (Operation.position A)) doc).
Proof.
  intros HiA HiB HA HB.
  split; [ apply insert_insert_commutes; assumption | ].
  destruct A as [ta pa xa la va ia], B as [tb pb xb lb vb ib].
  unfold Operation.is_insert, in_bounds, transform in *.
  cbn [Operation.op_type Operation.position Operation.text] in *.
  apply String.eqb_eq in HiA, HiB. subst ta tb.
  destruct HA as [HA _]. intros <-.
  cbn [transform_rec Operation.copy Operation.is_insert Operation.is_delete
       Operation.op_type Operation.position Operation.text String.eqb
       Ascii.eqb Bool.eqb andb].
  rewrite Z.ltb_irrefl, Z.gtb_ltb, Z.ltb_irrefl.
  cbn [from_option id snd]. unfold Operation.set_position.
  cbn [Operation.op_type Operation.position Operation.text Operation.length
       Operation.base_version Operation.op_id].
  rewrite apply_two by reflexivity.
  rewrite (spliced_insert _ doc) by (try reflexivity; assumption).
  cbn [Operation.position Operation.text].
  destruct (str_cut2 (Z.to_nat pa) doc) as (x & z & -> & Hx);
    [ unfold Py.len in HA; lia | ].
  rewrite <- Hx, str_take_app_exact, str_drop_app_exact.
  rewrite spliced_insert; cbn [Operation.position Operation.text].
  - replace (Z.to_nat (pa + Py.len xa)) with (String.length (x +:+ xa))
      by (rewrite str_app_length; unfold Py.len; lia).
    rewrite <- (str_app_assoc x xa z).
    rewrite str_take_app_exact, str_drop_app_exact.
    rewrite !str_app_assoc. reflexivity.
  - reflexivity.
  - unfold Py.len in *. rewrite !str_app_length in *. lia.
Qed.

Lemma concurrent_inserts_converge_witness :
  in_bounds (insert_op 5 "a" 0 None) "Hello OT!"
  /\ in_bounds (insert_op 5 "b" 0 None) "Hello OT!"
  /\ commutes_on "Hello OT!" (insert_op 5 "a" 0 None) (insert_op 5 "b" 0 None)
  /\ DocumentModel.text
       (apply_all [insert_op 5 "a" 0 None;
                   snd (transform (insert_op 5 "a" 0 None)
                          (insert_op 5 "b" 0 None))]
          (DocumentModel.init "Hello OT!"))
     = "Helloab OT!".
Proof.
  assert (HA : in_bounds (insert_op 5 "a" 0 None) "Hello OT!")
    by (split; [ vm_compute; split; discriminate | discriminate ]).
  assert (HB : in_bounds (insert_op 5 "b" 0 None) "Hello OT!")
    by (split; [ vm_compute; split; discriminate | discriminate ]).
  destruct (concurrent_inserts_converge "Hello OT!" (insert_op 5 "a" 0 None)
              (insert_op 5 "b" 0 None) eq_refl eq_refl HA HB) as [Hc Htie].
  split; [ exact HA | split; [ exact HB | split; [ exact Hc | ] ] ].
  rewrite (Htie eq_refl). reflexivity.
Defined.

(** X19: an insert and a delete converge, in either argument order, when
    the insert position is not strictly inside the deleted range: both
    orders of application give the same text. *)
Theorem insert_and_delete_converge_outside_the_range
    (doc : string) (I D : Operation.t) :
  Operation.is_insert I = true -> Operation.is_delete D = true ->
  in_bounds I doc -> in_bounds D doc ->
  0 <= Operation.length D ->
  Operation.position I <= Operation.position D
  \/ Operation.position D + Operation.length D <= Operation.position I ->
  commutes_on doc I D /\ commutes_on doc D I.
Proof.
  intros Hi Hd HI HD Hlen Hout. split.
  - apply insert_outside_delete_commutes; assumption.
  - apply delete_outside_insert_commutes; assumption.
Qed.

Lemma insert_and_delete_converge_outside_the_range_witness :
  in_bounds (insert_op 5 "X" 0 None) "abcdef"
  /\ in_bounds (delete_op 1 4 0 None) "abcdef"
  /\ commutes_on "abcdef" (insert_op 5 "X" 0 None) (delete_op 1 4 0 None)
  /\ commutes_on "abcdef" (delete_op 1 4 0 None) (insert_op 5 "X" 0 None).
Proof.
  assert (HI : in_bounds (insert_op 5 "X" 0 None) "abcdef")
    by (split; [ vm_compute; split; discriminate | discriminate ]).
  assert (HD : in_bounds (delete_op 1 4 0 None) "abcdef")
    by (split; [ | intros _ ]; vm_compute; split; discriminate).
  split; [ exact HI | split; [ exact HD | ] ].
  apply (insert_and_delete_converge_outside_the_range "abcdef"
           (insert_op 5 "X" 0 None) (delete_op 1 4 0 None));
    try reflexivity; try assumption.
  - cbn. lia.
  - right. cbn. lia.
Defined.
